(** * News Genie agent: a shallow embedding of [streamlit_app.py]

    The development follows the Python module function by function.
    Python values are represented as follows.

    - [str] is [string]; every character is a code point below 256, and the
      character tables below ([lower_char], [is_space], [is_word_char]) are
      the restrictions of Python's Unicode tables to that range.
    - [int] is [Z].
    - [datetime] is a timestamp that is either naive or timezone aware;
      ordering a naive against an aware value raises [TypeError].
    - a field read from a JSON record that may hold [None] where the class
      declares [str] is an [option string].
    - [dict] with string keys is [gmap string _]; a [defaultdict(int)] is
      read with default [0].
    - exceptions are the [Raise] branch of [result]. *)

From Stdlib Require Import ZArith List Bool Ascii String Permutation Sorted Lia.
From Stdlib Require Import Numbers.DecimalString.
From stdpp Require Import gmap strings list fin_maps.

Local Open Scope Z_scope.

(** ** Exceptions *)

Inductive exn : Type := TypeError.

Inductive result (A : Type) : Type :=
| Ok (a : A)
| Raise (e : exn).
Arguments Ok {A} a.
Arguments Raise {A} e.

#[global] Instance result_ret : MRet result := fun A a => Ok a.

#[global] Instance result_bind : MBind result := fun A B k m =>
  match m with
  | Ok a => k a
  | Raise e => Raise e
  end.

(** ** Python string primitives *)

Module PyStr.

Definition between (lo hi n : N) : bool := ((lo <=? n) && (n <=? hi))%N.

(** [str.lower] on one character: the cased code points below 256 are
    A-Z, U+00C0-U+00D6 and U+00D8-U+00DE, each 32 below its lowercase.
    On this range [str.lower] works character by character, keeps the
    length, and every letter with a lower-case form is changed by it;
    none of this is so on all of Unicode (the final sigma depends on its
    neighbours, U+0130 lowers to two code points, U+2102 is an upper-case
    letter without a lower-case form). *)
Definition lower_char (c : ascii) : ascii :=
  let n := N_of_ascii c in
  if between 65 90 n || between 192 214 n || between 216 222 n
  then ascii_of_N (n + 32) else c.

Fixpoint lower (s : string) : string :=
  match s with
  | EmptyString => EmptyString
  | String c t => String (lower_char c) (lower t)
  end.

(** [str.isspace] on one character. *)
Definition is_space (c : ascii) : bool :=
  let n := N_of_ascii c in
  between 9 13 n || between 28 32 n || (n =? 133)%N || (n =? 160)%N.

(** The class [\w] of [re] on [str] patterns: alphanumeric or underscore. *)
Definition is_word_char (c : ascii) : bool :=
  let n := N_of_ascii c in
  between 48 57 n || between 65 90 n || (n =? 95)%N || between 97 122 n
  || (n =? 170)%N || between 178 179 n || (n =? 181)%N
  || between 185 186 n || between 188 190 n
  || between 192 214 n || between 216 246 n || between 248 255 n.

(** [needle in hay] *)
Fixpoint contains (needle hay : string) : bool :=
  String.prefix needle hay
  || match hay with
     | EmptyString => false
     | String _ t => contains needle t
     end.

(** [s.split(sep)] for a one-character separator. *)
Fixpoint split (sep : ascii) (s : string) : list string :=
  match s with
  | EmptyString => [EmptyString]
  | String c t =>
      if Ascii.eqb c sep then EmptyString :: split sep t
      else match split sep t with
           | h :: r => String c h :: r
           | [] => [String c EmptyString]
           end
  end.

Fixpoint lstrip (s : string) : string :=
  match s with
  | EmptyString => EmptyString
  | String c t => if is_space c then lstrip t else s
  end.

Fixpoint rstrip (s : string) : string :=
  match s with
  | EmptyString => EmptyString
  | String c t =>
      match rstrip t with
      | EmptyString => if is_space c then EmptyString else String c EmptyString
      | t' => String c t'
      end
  end.

(** [s.strip()] *)
Definition strip (s : string) : string := rstrip (lstrip s).

(** [s[:n]] for a literal [n >= 0]. *)
Fixpoint take (n : nat) (s : string) : string :=
  match n, s with
  | S n', String c t => String c (take n' t)
  | _, _ => EmptyString
  end.

(** [re.findall(r'\b\w+\b', s)]: the maximal runs of word characters,
    from left to right. *)
Fixpoint findall_words (s : string) : list string :=
  match s with
  | EmptyString => []
  | String c t =>
      if is_word_char c then
        match t with
        | EmptyString => [String c EmptyString]
        | String c' _ =>
            if is_word_char c' then
              match findall_words t with
              | h :: r => String c h :: r
              | [] => [String c EmptyString]
              end
            else String c EmptyString :: findall_words t
        end
      else findall_words t
  end.

(** [str(n)] for a non-negative [int]. *)
Definition of_nat (n : nat) : string :=
  NilEmpty.string_of_uint (Nat.to_uint n).

(** Truth value of a string: non-empty. *)
Definition truthy (s : string) : bool :=
  match s with
  | EmptyString => false
  | String _ _ => true
  end.

End PyStr.

(** ** Python list primitives *)

Module PyList.

(** [l[:k]]: a negative [k] counts from the end. *)
Definition slice_to {A : Type} (l : list A) (k : Z) : list A :=
  if 0 <=? k then firstn (Z.to_nat k) l
  else firstn (length l - Z.to_nat (- k)) l.

Definition truthy {A : Type} (l : list A) : bool :=
  match l with
  | [] => false
  | _ :: _ => true
  end.

(** [x in l] for a list of strings. *)
Definition mem (x : string) (l : list string) : bool :=
  existsb (String.eqb x) l.

(** [enumerate(l)] *)
Definition enumerate {A : Type} (l : list A) : list (nat * A) :=
  combine (seq 0 (length l)) l.

End PyList.

(** ** Data model *)

(** [datetime]: microseconds on the time line, tagged with whether the
    value carries a timezone.  [datetime.now()] is naive;
    [datetime.fromisoformat] of a string with an offset is aware. *)
Inductive datetime : Type :=
| Naive (us : Z)
| Aware (us : Z).

(** [a < b] on [datetime]: mixing naive and aware raises [TypeError]. *)
Definition dt_lt (a b : datetime) : result bool :=
  match a, b with
  | Naive x, Naive y => Ok (x <? y)
  | Aware x, Aware y => Ok (x <? y)
  | _, _ => Raise TypeError
  end.

Definition us_per_hour : Z := 3600 * 1000000.

(** [d - timedelta(hours=h)] *)
Definition minus_hours (d : datetime) (h : nat) : datetime :=
  match d with
  | Naive x => Naive (x - Z.of_nat h * us_per_hour)
  | Aware x => Aware (x - Z.of_nat h * us_per_hour)
  end.

(** [class NewsArticle] *)
Record NewsArticle : Type := mkNewsArticle {
  title : string;
  description : string;
  url : string;
  source : string;
  published_at : datetime;
  category : string;
  sentiment : string;
  summary : string;
  keywords : list string
}.

(** [self.user_preferences]: a dict with the three fixed keys. *)
Record Preferences : Type := mkPreferences {
  pref_categories : list string;
  pref_keywords : list string;
  pref_sources : list string
}.

(** [self.statistics]: a dict with four fixed keys, three of them
    [defaultdict(int)]. *)
Record Statistics : Type := mkStatistics {
  total_articles : Z;
  by_category : gmap string Z;
  by_sentiment : gmap string Z;
  by_source : gmap string Z
}.

(** [class NewsGenieAgent] *)
Record NewsGenieAgent : Type := mkAgent {
  api_key : string;
  articles : list NewsArticle;
  user_preferences : Preferences;
  statistics : Statistics
}.

(** One record of the [articles] array of the headline service, as
    [_fetch_from_api] reads it: [item_title] is [None] when the key is
    missing; [item_description] is the value of
    [item.get("description", "")], which is [None] when the record holds
    a JSON null; [item_published_at] is the value of
    [datetime.fromisoformat(s.replace('Z', '+00:00'))] for the record's
    [publishedAt], [None] when that raises. *)
Record ApiItem : Type := mkApiItem {
  item_title : option string;
  item_description : option string;
  item_url : string;
  item_source_name : string;
  item_published_at : option datetime
}.

(** An object of class [NewsArticle] as [_fetch_from_api] builds it.  The
    dataclass checks none of its fields, so the description of the object
    is whatever the record held, [None] included. *)
Record RawArticle : Type := mkRawArticle {
  raw_title : string;
  raw_description : option string;
  raw_url : string;
  raw_source : string;
  raw_published_at : datetime;
  raw_category : string;
  raw_sentiment : string;
  raw_summary : string;
  raw_keywords : list string
}.

(** An article whose description is a text, as an object of the class. *)
Definition raw (a : NewsArticle) : RawArticle :=
  mkRawArticle (title a) (Some (description a)) (url a) (source a)
    (published_at a) (category a) (sentiment a) (summary a) (keywords a).

(** The object read as an article by code that takes its description for
    a text; there is none when the description is [None]. *)
Definition described (r : RawArticle) : option NewsArticle :=
  match raw_description r with
  | Some d =>
      Some (mkNewsArticle (raw_title r) d (raw_url r) (raw_source r)
              (raw_published_at r) (raw_category r) (raw_sentiment r)
              (raw_summary r) (raw_keywords r))
  | None => None
  end.

(** What the module reads from outside itself. *)
Record World : Type := mkWorld {
  (** [requests.get(...).json()] for an api key, query, category parameter
      and page size; [None] when the request, the decoding or the reading
      of a record (one whose [source] is not an object, say) raises. *)
  http_get : string -> option string -> option string -> Z -> option (list ApiItem);
  (** the reading of [datetime.now()] while entry number [i] of the list
      at hand (the samples, or the records of a response) is worked on *)
  now_at : nat -> Z;
  (** the order in which [list(set(l))] enumerates the members of [l] *)
  set_iter : list string -> list string
}.

(** A [set] holds each member once; its iteration order is unspecified. *)
Definition set_iter_ok (f : list string -> list string) : Prop :=
  forall l, List.NoDup (f l) /\ (forall x, In x (f l) <-> In x l).

Local Open Scope string_scope.

Definition CATEGORIES : list string :=
  ["Business"; "Technology"; "Sports"; "Entertainment";
   "Health"; "Science"; "Politics"; "General"].

Definition SENTIMENT_KEYWORDS : list (string * list string) :=
  [("positive", ["success"; "growth"; "win"; "breakthrough"; "achievement";
                 "innovation"; "improve"; "gain"; "rise"; "profit"]);
   ("negative", ["fail"; "crisis"; "decline"; "loss"; "problem"; "concern";
                 "risk"; "threat"; "drop"; "controversy"]);
   ("neutral", ["report"; "announce"; "state"; "update"; "change"; "develop"])].

(** The stop words of [_extract_keywords]. *)
Definition common_words : list string :=
  ["the"; "a"; "an"; "and"; "or"; "but"; "in"; "on"; "at";
   "to"; "for"; "of"; "with"; "by"; "from"; "as"; "is"; "was"].

Record Sample : Type := mkSample {
  sample_title : string;
  sample_description : string;
  sample_category : string;
  sample_source : string
}.

(** The catalog of [_generate_sample_news]. *)
Definition samples : list Sample :=
  [ mkSample "AI Revolution: New Breakthrough in Machine Learning"
      "Researchers announce major advancement in neural networks that could transform the industry."
      "Technology" "Tech News";
    mkSample "Stock Market Reaches New Heights Amid Economic Recovery"
      "Major indices show significant gains as investors show confidence in economic outlook."
      "Business" "Financial Times";
    mkSample "Championship Game Ends in Dramatic Fashion"
      "Thrilling finale sees underdog team clinch victory in final seconds of play."
      "Sports" "Sports Daily";
    mkSample "New Health Study Reveals Benefits of Mediterranean Diet"
      "Long-term research confirms positive effects on heart health and longevity."
      "Health" "Health Journal";
    mkSample "Climate Scientists Report Concerning Trends in Global Temperatures"
      "Latest data shows acceleration in warming patterns across multiple regions."
      "Science" "Science Today";
    mkSample "Major Policy Changes Announced by Government Officials"
      "New legislation aims to address key concerns raised by citizens nationwide."
      "Politics" "Political Review";
    mkSample "Blockbuster Film Breaks Box Office Records"
      "Latest release exceeds expectations with record-breaking opening weekend."
      "Entertainment" "Entertainment Weekly";
    mkSample "Tech Giant Unveils Revolutionary New Product"
      "Company announces innovative device that promises to change how we interact with technology."
      "Technology" "Tech Insider";
    mkSample "Small Business Growth Surges in Rural Areas"
      "Entrepreneurial activity shows significant increase outside major metropolitan regions."
      "Business" "Business Week";
    mkSample "Olympic Athletes Prepare for Upcoming Games"
      "Training intensifies as competitors gear up for international competition."
      "Sports" "Olympic News" ].

(** [NewsGenieAgent(api_key)]: [api_key or "demo"], an empty store, empty
    preferences and zeroed statistics. *)
Definition empty_statistics : Statistics :=
  mkStatistics 0%Z ∅ ∅ ∅.

Definition __init__ (key : option string) : NewsGenieAgent :=
  mkAgent
    (match key with
     | Some k => if PyStr.truthy k then k else "demo"
     | None => "demo"
     end)
    []
    (mkPreferences [] [] [])
    empty_statistics.

(** ** The sample generator *)

(** The [NewsArticle(...)] built in the loop body for index [i]. *)
Definition sample_article (w : World) (i : nat) (sample : Sample) : NewsArticle :=
  mkNewsArticle
    (sample_title sample +:+ " - Update #"
       +:+ PyStr.of_nat (i / List.length samples + 1))
    (sample_description sample)
    ("https://example.com/article/" +:+ PyStr.of_nat i)
    (sample_source sample)
    (minus_hours (Naive (now_at w i)) i)
    (sample_category sample)
    "neutral" "" [].

(** The [for i, sample in enumerate(samples * 3)] loop; [acc] is the list
    [articles] built so far. *)
Fixpoint sample_loop (w : World) (category : string) (count : Z)
    (items : list (nat * Sample)) (acc : list NewsArticle) : list NewsArticle :=
  match items with
  | [] => acc
  | (i, sample) :: rest =>
      if (Z.of_nat (List.length acc) >=? count)%Z then acc
      else if PyStr.truthy category
              && negb (String.eqb (sample_category sample) category)
      then sample_loop w category count rest acc
      else sample_loop w category count rest (acc ++ [sample_article w i sample])
  end.

Definition _generate_sample_news (w : World) (category : string) (count : Z)
    : list NewsArticle :=
  PyList.slice_to
    (sample_loop w category count
       (PyList.enumerate (samples ++ samples ++ samples)) [])
    count.

(** ** The enrichment pipeline *)

(** [(article.title + " " + article.description).lower()] *)
Definition article_text (a : NewsArticle) : string :=
  PyStr.lower (title a +:+ " " +:+ description a).

(** The inner loop of [_analyze_sentiment]: [scores[sentiment] += 1] for
    every keyword found in the text.  The three keys are present from the
    start, so the update never misses. *)
Definition score_keywords (text : string) (sentiment : string)
    (kws : list string) (scores : gmap string Z) : gmap string Z :=
  fold_left
    (fun sc keyword =>
       if PyStr.contains keyword text then alter Z.succ sentiment sc else sc)
    kws scores.

Definition initial_scores : gmap string Z :=
  <["positive" := 0%Z]> (<["negative" := 0%Z]> (<["neutral" := 0%Z]> ∅)).

Definition sentiment_scores (text : string) : gmap string Z :=
  fold_left
    (fun sc '(sentiment, kws) => score_keywords text sentiment kws sc)
    SENTIMENT_KEYWORDS initial_scores.

Definition score (scores : gmap string Z) (k : string) : Z :=
  default 0%Z (scores !! k).

Definition _analyze_sentiment (a : NewsArticle) : string :=
  let scores := sentiment_scores (article_text a) in
  if (score scores "positive" >? score scores "negative")%Z then "positive"
  else if (score scores "negative" >? score scores "positive")%Z then "negative"
  else "neutral".

Definition _generate_summary (a : NewsArticle) : string :=
  if negb (PyStr.truthy (description a)) then title a
  else
    let sentences := PyStr.split "." (description a) in
    let summary := PyStr.strip (hd "" sentences) +:+ "." in
    if (20 <? String.length summary)%nat then summary
    else PyStr.take 100 (description a) +:+ "...".

Definition _extract_keywords (w : World) (a : NewsArticle) : list string :=
  let text := article_text a in
  let words := PyStr.findall_words text in
  let keywords :=
    List.filter
      (fun x => (4 <? String.length x)%nat && negb (PyList.mem x common_words))
      words in
  firstn 5 (set_iter w keywords).


(** ** Fetching *)

(** [_parse_date]: the parsed value, or the clock's reading when parsing
raised. *)
Definition _parse_date (w : World) (i : nat) (parsed : option datetime)
    : datetime :=
  match parsed with
  | Some d => d
  | None => Naive (now_at w i)
  end.

(** [_fetch_from_api]: [None] stands for an exception leaving the call. *)
Definition _fetch_from_api (w : World) (ag : NewsGenieAgent)
    (query category : string) (max_results : Z) : option (list RawArticle) :=
  let q := if PyStr.truthy query then Some query else None in
  let cat :=
    if PyStr.truthy category && negb (String.eqb category "General")
    then Some (PyStr.lower category) else None in
  match http_get w (api_key ag) q cat max_results with
  | None => None
  | Some items =>
      Some
        (flat_map
           (fun '(i, item) =>
              match item_title item with
              | Some t =>
                  if PyStr.truthy t && negb (String.eqb t "[Removed]")
                  then [mkRawArticle t (item_description item) (item_url item)
                          (item_source_name item)
                          (_parse_date w i (item_published_at item))
                          (if PyStr.truthy category then category else "General")
                          "neutral" "" []]
                  else []
              | None => []
              end)
           (PyList.enumerate items))
  end.

(** The three assignments at the head of the processing loop. *)
Definition enrich (w : World) (a : NewsArticle) : NewsArticle :=
  let a1 := mkNewsArticle (title a) (description a) (url a) (source a)
              (published_at a) (category a)
              (_analyze_sentiment a) (summary a) (keywords a) in
  let a2 := mkNewsArticle (title a1) (description a1) (url a1) (source a1)
              (published_at a1) (category a1)
              (sentiment a1) (_generate_summary a1) (keywords a1) in
  mkNewsArticle (title a2) (description a2) (url a2) (source a2)
    (published_at a2) (category a2)
    (sentiment a2) (summary a2) (_extract_keywords w a2).

(** [d[k] += 1] on a [defaultdict(int)] *)
Definition incr (d : gmap string Z) (k : string) : gmap string Z :=
  <[k := (default 0 (d !! k) + 1)%Z]> d.

(** The four counter updates of the processing loop. *)
Definition record_article (st : Statistics) (a : NewsArticle) : Statistics :=
  mkStatistics
    (total_articles st + 1)%Z
    (incr (by_category st) (category a))
    (incr (by_sentiment st) (sentiment a))
    (incr (by_source st) (source a)).

(** The [for article in articles] loop: every article is enriched in place
and counted.  [_analyze_sentiment] is the first to read the description:
on an object whose description is [None] its
[article.title + " " + article.description] raises [TypeError], and the
loop is left with the counters as the articles before have set them. *)
Fixpoint process_articles (w : World) (todo : list RawArticle)
    (st : Statistics) : result (list NewsArticle) * Statistics :=
  match todo with
  | [] => (Ok [], st)
  | r :: rest =>
      match described r with
      | None => (Raise TypeError, st)
      | Some a =>
          let a' := enrich w a in
          let '(out, st') :=
            process_articles w rest (record_article st a') in
          (match out with
           | Ok rest' => Ok (a' :: rest')
           | Raise e => Raise e
           end, st')
      end
  end.

(** [fetch_news]: what the call returns or raises, and the agent it
leaves.  Only [_fetch_from_api] runs inside the [try]; an exception of the
processing loop leaves the call before [self.articles.extend]. *)
Definition fetch_news (w : World) (ag : NewsGenieAgent)
    (query category : string) (max_results : Z)
    : result (list NewsArticle) * NewsGenieAgent :=
  let fetched :=
    if PyStr.truthy (api_key ag) && negb (String.eqb (api_key ag) "demo")
    then match _fetch_from_api w ag query category max_results with
         | Some l => l
         | None => []
         end
    else [] in
  let fetched :=
    if negb (PyList.truthy fetched)
    then map raw (_generate_sample_news w category max_results)
    else fetched in
  let '(out, st) := process_articles w fetched (statistics ag) in
  match out with
  | Ok processed =>
      (Ok processed,
       mkAgent (api_key ag) (articles ag ++ processed) (user_preferences ag) st)
  | Raise e =>
      (Raise e, mkAgent (api_key ag) (articles ag) (user_preferences ag) st)
  end.

(** ** Preferences and queries *)

(** An argument left at its default is [None]; [if categories:] holds for
    a non-empty list only. *)
Definition provided (arg : option (list string)) (old : list string)
    : list string :=
  match arg with
  | Some l => if PyList.truthy l then l else old
  | None => old
  end.

Definition set_user_preferences (ag : NewsGenieAgent)
    (categories keywords sources : option (list string)) : NewsGenieAgent :=
  let p := user_preferences ag in
  mkAgent (api_key ag) (articles ag)
    (mkPreferences
       (provided categories (pref_categories p))
       (provided keywords (pref_keywords p))
       (provided sources (pref_sources p)))
    (statistics ag).

(** What the local name [filtered] of [get_personalized_news] is bound to:
    the list object held in [self.articles], or a list built by a
    comprehension. *)
Inductive list_ref : Type :=
| SelfArticles
| Fresh (l : list NewsArticle).

Definition deref (ag : NewsGenieAgent) (r : list_ref) : list NewsArticle :=
  match r with
  | SelfArticles => articles ag
  | Fresh l => l
  end.

(** [x] goes behind every element that is strictly later than it; equal
    keys keep their order. *)
Fixpoint insert_desc (x : NewsArticle) (l : list NewsArticle)
    : result (list NewsArticle) :=
  match l with
  | [] => Ok [x]
  | y :: l' =>
      b ← dt_lt (published_at x) (published_at y);
      if (b : bool) then r ← insert_desc x l'; Ok (y :: r)
      else Ok (x :: y :: l')
  end.

(** [l.sort(key=lambda x: x.published_at, reverse=True)]: a stable sort,
    latest first; it raises when two keys cannot be ordered. *)
Fixpoint sort_desc (l : list NewsArticle) : result (list NewsArticle) :=
  match l with
  | [] => Ok []
  | x :: l' => s ← sort_desc l'; insert_desc x s
  end.

Definition keyword_match (ks : list string) (a : NewsArticle) : bool :=
  existsb
    (fun k => PyStr.contains k (PyStr.lower (title a))
              || PyStr.contains k (PyStr.lower (description a)))
    ks.

(** The call returns the slice and leaves the agent in the second
    component; [list.sort] works on the object [filtered] names. *)
Definition get_personalized_news (ag : NewsGenieAgent) (limit : Z)
    : result (list NewsArticle * NewsGenieAgent) :=
  let p := user_preferences ag in
  let filtered := SelfArticles in
  let filtered :=
    if PyList.truthy (pref_categories p)
    then Fresh (List.filter (fun a => PyList.mem (category a) (pref_categories p))
                  (deref ag filtered))
    else filtered in
  let filtered :=
    if PyList.truthy (pref_keywords p)
    then Fresh (List.filter (keyword_match (pref_keywords p)) (deref ag filtered))
    else filtered in
  let filtered :=
    if PyList.truthy (pref_sources p)
    then Fresh (List.filter (fun a => PyList.mem (source a) (pref_sources p))
                  (deref ag filtered))
    else filtered in
  sorted ← sort_desc (deref ag filtered);
  let ag' :=
    match filtered with
    | SelfArticles =>
        mkAgent (api_key ag) sorted (user_preferences ag) (statistics ag)
    | Fresh _ => ag
    end in
  Ok (PyList.slice_to sorted limit, ag').

Definition get_articles_by_category (ag : NewsGenieAgent) (c : string)
    : list NewsArticle :=
  List.filter (fun a => String.eqb (category a) c) (articles ag).

Definition get_articles_by_sentiment (ag : NewsGenieAgent) (s : string)
    : list NewsArticle :=
  List.filter (fun a => String.eqb (sentiment a) s) (articles ag).

Definition search_articles (ag : NewsGenieAgent) (query : string)
    : list NewsArticle :=
  let query := PyStr.lower query in
  List.filter
    (fun a => PyStr.contains query (PyStr.lower (title a))
              || PyStr.contains query (PyStr.lower (description a)))
    (articles ag).

(** The dict returned by [get_statistics]. *)
Record StatisticsReport : Type := mkReport {
  report_total_articles : Z;
  report_by_category : gmap string Z;
  report_by_sentiment : gmap string Z;
  report_by_source : gmap string Z;
  report_user_preferences : Preferences
}.

Definition get_statistics (ag : NewsGenieAgent) : StatisticsReport :=
  mkReport
    (total_articles (statistics ag))
    (by_category (statistics ag))
    (by_sentiment (statistics ag))
    (by_source (statistics ag))
    (user_preferences ag).

Definition clear_articles (ag : NewsGenieAgent) : NewsGenieAgent :=
  mkAgent (api_key ag) [] (user_preferences ag) empty_statistics.

Local Close Scope string_scope.

(** ** Calls on an agent *)

Inductive Call : Type :=
| CallFetch (query category : string) (max_results : Z)
| CallSetPreferences (categories keywords sources : option (list string))
| CallPersonalized (limit : Z)
| CallByCategory (c : string)
| CallBySentiment (s : string)
| CallSearch (query : string)
| CallStatistics
| CallClear.

Definition with_articles (ag : NewsGenieAgent) (l : list NewsArticle)
    : NewsGenieAgent :=
  mkAgent (api_key ag) l (user_preferences ag) (statistics ag).

(** [step w c ag ag']: the call [c], made in world [w] on the agent [ag],
    leaves the agent as [ag'], whether it returned or raised.  A
    [fetch_news] that raises leaves the agent [fetch_news] gives for that
    case; a [list.sort] that raises leaves its list in some rearrangement
    of what it held. *)
Inductive step (w : World) : Call -> NewsGenieAgent -> NewsGenieAgent -> Prop :=
| step_fetch q c m ag :
    step w (CallFetch q c m) ag (snd (fetch_news w ag q c m))
| step_set_preferences c k s ag :
    step w (CallSetPreferences c k s) ag (set_user_preferences ag c k s)
| step_personalized limit ag r ag' :
    get_personalized_news ag limit = Ok (r, ag') ->
    step w (CallPersonalized limit) ag ag'
| step_personalized_raise limit ag e l :
    get_personalized_news ag limit = Raise e ->
    Permutation (articles ag) l ->
    step w (CallPersonalized limit) ag (with_articles ag l)
| step_by_category c ag : step w (CallByCategory c) ag ag
| step_by_sentiment s ag : step w (CallBySentiment s) ag ag
| step_search q ag : step w (CallSearch q) ag ag
| step_statistics ag : step w CallStatistics ag ag
| step_clear ag : step w CallClear ag (clear_articles ag).

(** The agents a program can hold: a new one, or one a call was made on. *)
Inductive reachable : NewsGenieAgent -> Prop :=
| reachable_init key : reachable (__init__ key)
| reachable_step w c ag ag' :
    reachable ag -> step w c ag ag' -> reachable ag'.

(** ** Vocabulary of the properties *)

(** [k] occurs in [s] as a run of consecutive characters. *)
Definition is_substring (k s : string) : Prop :=
  exists pre post, s = pre +:+ k +:+ post.

Definition all_chars (P : ascii -> bool) (s : string) : Prop :=
  Forall (fun c => P c = true) (list_ascii_of_string s).

(** [p] is the part of [d] in front of its first period, or all of [d]
    when [d] has none. *)
Definition first_sentence (d p : string) : Prop :=
  all_chars (fun c => negb (Ascii.eqb c ".")) p
  /\ (d = p \/ exists rest, d = p +:+ String "." rest).

Definition head_char (s : string) : option ascii :=
  match s with
  | EmptyString => None
  | String c _ => Some c
  end.

Fixpoint last_char (s : string) : option ascii :=
  match s with
  | EmptyString => None
  | String c EmptyString => Some c
  | String _ t => last_char t
  end.

Definition not_space (o : option ascii) : Prop :=
  match o with
  | Some c => PyStr.is_space c = false
  | None => True
  end.

(** [q] is [p] without the white space at its two ends. *)
Definition stripped (p q : string) : Prop :=
  (exists l r, p = l +:+ q +:+ r
               /\ all_chars PyStr.is_space l /\ all_chars PyStr.is_space r)
  /\ not_space (head_char q) /\ not_space (last_char q).

(** The time line position of a [datetime]. *)
Definition ts (d : datetime) : Z :=
  match d with
  | Naive x => x
  | Aware x => x
  end.

Definition is_naive (d : datetime) : bool :=
  match d with
  | Naive _ => true
  | Aware _ => false
  end.

(** All publish times can be ordered against each other. *)
Definition comparable (l : list NewsArticle) : Prop :=
  forall a b, In a l -> In b l ->
    is_naive (published_at a) = is_naive (published_at b).

(** Latest first. *)
Definition sorted_desc (l : list NewsArticle) : Prop :=
  StronglySorted
    (fun a b => (ts (published_at b) <= ts (published_at a))%Z) l.

(** Articles with the same publish time appear in [l'] in the order they
    have in [l]. *)
Definition same_order_among_equals (l l' : list NewsArticle) : Prop :=
  forall t,
    List.filter (fun a => (ts (published_at a) =? t)%Z) l'
    = List.filter (fun a => (ts (published_at a) =? t)%Z) l.

Definition counter_sum (d : gmap string Z) : Z :=
  map_fold (fun _ v acc => (v + acc)%Z) 0%Z d.

(** The counters of [st] all stand at [n]. *)
Definition counters_at (st : Statistics) (n : Z) : Prop :=
  total_articles st = n
  /\ counter_sum (by_category st) = n
  /\ counter_sum (by_sentiment st) = n
  /\ counter_sum (by_source st) = n.

(** The counters agree with the store. *)
Definition stats_consistent (ag : NewsGenieAgent) : Prop :=
  let st := statistics ag in
  total_articles st = Z.of_nat (List.length (articles ag))
  /\ total_articles st = counter_sum (by_category st)
  /\ total_articles st = counter_sum (by_sentiment st)
  /\ total_articles st = counter_sum (by_source st).

(** The keywords listed under one label of [SENTIMENT_KEYWORDS]. *)
Definition keywords_of (label : string) : list string :=
  match List.find (fun '(l, _) => String.eqb l label) SENTIMENT_KEYWORDS with
  | Some (_, kws) => kws
  | None => []
  end.

(** [count_present text l n]: exactly [n] entries of [l] are substrings of
[text]. *)
Inductive count_present (text : string) : list string -> nat -> Prop :=
| count_present_nil : count_present text [] 0
| count_present_hit k l n :
    is_substring k text -> count_present text l n ->
    count_present text (k :: l) (S n)
| count_present_miss k l n :
    ~ is_substring k text -> count_present text l n ->
    count_present text (k :: l) n.

(** The entries of [samples * 3], the list the loop of
[_generate_sample_news] runs over, that the loop accepts for a category. *)
Definition available (category : string) : list Sample :=
  List.filter
    (fun s => negb (PyStr.truthy category)
              || String.eqb (sample_category s) category)
    (samples ++ samples ++ samples).

(** ** Vocabulary of the further properties *)

(** The batch the processing loop of [fetch_news] works on: what the
headline service gave when the agent has a key of its own and the service
gave at least one usable record, and the samples otherwise. *)
Definition raw_batch (w : World) (ag : NewsGenieAgent)
    (query category : string) (max_results : Z) : list RawArticle :=
  let live :=
    PyStr.truthy (api_key ag) && negb (String.eqb (api_key ag) "demo") in
  match (if live then _fetch_from_api w ag query category max_results
         else None) with
  | Some (a :: l) => a :: l
  | _ => map raw (_generate_sample_news w category max_results)
  end.

(** The articles of a batch in front of the first object whose description
is [None]: the ones the processing loop gets through. *)
Fixpoint described_prefix (l : list RawArticle) : list NewsArticle :=
  match l with
  | [] => []
  | r :: rest =>
      match described r with
      | Some a => a :: described_prefix rest
      | None => []
      end
  end.

(** No object of the batch has the description [None]. *)
Definition all_described (l : list RawArticle) : bool :=
  forallb
    (fun r => match raw_description r with Some _ => true | None => false end)
    l.

(** The call did not leave [fetch_news] by an exception. *)
Definition fetch_returned (w : World) (c : Call) (ag : NewsGenieAgent)
    : Prop :=
  match c with
  | CallFetch q cat m => exists l, fst (fetch_news w ag q cat m) = Ok l
  | _ => True
  end.

(** The agents a program holds as long as none of its fetches has
raised. *)
Inductive settled : NewsGenieAgent -> Prop :=
| settled_init key : settled (__init__ key)
| settled_step w c ag ag' :
    settled ag -> step w c ag ag' -> fetch_returned w c ag -> settled ag'.

(** The three tests of [get_personalized_news] on one article; a test
whose preference list is empty lets every article through. *)
Definition passes (p : Preferences) (a : NewsArticle) : bool :=
  (negb (PyList.truthy (pref_categories p))
   || PyList.mem (category a) (pref_categories p))
  && (negb (PyList.truthy (pref_keywords p))
      || keyword_match (pref_keywords p) a)
  && (negb (PyList.truthy (pref_sources p))
      || PyList.mem (source a) (pref_sources p)).

(** The stored articles that pass the three tests, in store order. *)
Definition selected (ag : NewsGenieAgent) : list NewsArticle :=
  List.filter (passes (user_preferences ag)) (articles ag).

(** What an article that passes the tests satisfies. *)
Definition meets (p : Preferences) (a : NewsArticle) : Prop :=
  (pref_categories p <> [] -> In (category a) (pref_categories p))
  /\ (pref_keywords p <> [] ->
      exists k, In k (pref_keywords p)
        /\ (is_substring k (PyStr.lower (title a))
            \/ is_substring k (PyStr.lower (description a))))
  /\ (pref_sources p <> [] -> In (source a) (pref_sources p)).

(** The number of articles of [l] whose field [f] is [k]. *)
Definition tally (f : NewsArticle -> string) (l : list NewsArticle)
    (k : string) : nat :=
  List.length (List.filter (fun a => String.eqb (f a) k) l).

(** The entry a counter dict has for a key counted [n] times: none at all
for a key never counted. *)
Definition counter_entry (n : nat) : option Z :=
  match n with
  | O => None
  | S _ => Some (Z.of_nat n)
  end.

(** One counter dict [d] holds the counts of field [f] over [l]. *)
Definition dict_exact (f : NewsArticle -> string) (l : list NewsArticle)
    (d : gmap string Z) : Prop :=
  forall k, d !! k = counter_entry (tally f l k).

(** Every counter dict has, for every key, the count of the stored
articles with that key. *)
Definition counters_exact (ag : NewsGenieAgent) : Prop :=
  forall k,
    by_category (statistics ag) !! k
    = counter_entry (tally category (articles ag) k)
    /\ by_sentiment (statistics ag) !! k
       = counter_entry (tally sentiment (articles ag) k)
    /\ by_source (statistics ag) !! k
       = counter_entry (tally source (articles ag) k).

(** [k] has a character that [str.lower] changes (A to Z and the
accented capitals, among the code points of this model). *)
Definition changed_by_lower (k : string) : Prop :=
  exists c, In c (list_ascii_of_string k) /\ PyStr.lower_char c <> c.

(** The enrichment fields of a stored article are the ones the pipeline
computes from its title and description. *)
Definition enriched (a : NewsArticle) : Prop :=
  title a <> EmptyString
  /\ sentiment a = _analyze_sentiment a
  /\ summary a = _generate_summary a
  /\ summary a <> EmptyString
  /\ In (sentiment a) ["positive"; "negative"; "neutral"]%string.

(** Between the building of two samples the clock advances by no more
than an hour per sample. *)
Definition steady_clock (w : World) : Prop :=
  forall i j, (i <= j)%nat ->
    (now_at w j - now_at w i <= Z.of_nat (j - i) * us_per_hour)%Z.

(** The argument that has the effect of two successive arguments of
[set_user_preferences]. *)
Definition then_arg (first second : option (list string))
    : option (list string) :=
  match second with
  | Some (x :: l) => Some (x :: l)
  | _ => first
  end.

(** ** Readings of the specification that differ from the code *)

Module AsSpecified.

(** The number of places of [hay] at which [needle] starts. *)
Fixpoint count_occurrences (needle hay : string) : nat :=
  ((if String.prefix needle hay then 1 else 0)
   + match hay with
     | EmptyString => 0
     | String _ t => count_occurrences needle t
     end)%nat.

Definition occurrences (label : string) (text : string) : nat :=
  list_sum (map (fun k => count_occurrences k text) (keywords_of label)).

(** Sentiment by comparing occurrence counts. *)
Definition sentiment_by_occurrences (a : NewsArticle) : string :=
  let text := article_text a in
  let pos := occurrences "positive" text in
  let neg := occurrences "negative" text in
  if (neg <? pos)%nat then "positive"%string
  else if (pos <? neg)%nat then "negative"%string
  else "neutral"%string.

(** The text up to and including the first period. *)
Fixpoint upto_first_period (s : string) : string :=
  match s with
  | EmptyString => EmptyString
  | String c t =>
      if Ascii.eqb c "." then String c EmptyString
      else String c (upto_first_period t)
  end.

Definition summary (a : NewsArticle) : string :=
  if negb (PyStr.truthy (description a)) then title a
  else
    let candidate := upto_first_period (description a) in
    if (20 <? String.length candidate)%nat then candidate
    else PyStr.take 100 (description a) +:+ "...".

(** The catalog items available after category filtering: the entries of
the catalog itself that have the category, all of them when none is
requested. *)
Definition catalog_available (category : string) : list Sample :=
  List.filter
    (fun s => negb (PyStr.truthy category)
              || String.eqb (sample_category s) category)
    samples.

(** A provided list replaces the stored one, whatever it holds. *)
Definition provided (arg : option (list string)) (old : list string)
    : list string :=
  match arg with
  | Some l => l
  | None => old
  end.

End AsSpecified.

(** ** Concrete values for the examples *)

Module Fixtures.

Definition clock : nat -> Z := fun _ => 1700000000000000%Z.

(** The headline service answers every request with two records, the
older one first; a set is enumerated with each member at the place of its
last occurrence. *)
Definition wire : World :=
  mkWorld
    (fun _ _ _ _ =>
       Some [ mkApiItem (Some "Council meets") (Some "Agenda published.")
                "https://example.org/council" "Gazette" (Some (Aware 1000));
              mkApiItem (Some "Cup final tonight") (Some "Kick-off at eight.")
                "https://example.org/cup" "Sports Daily" (Some (Aware 2000)) ])
    clock (nodup String.string_dec).

(** The headline service cannot be reached. *)
Definition offline : World :=
  mkWorld (fun _ _ _ _ => None) clock (nodup String.string_dec).

(** The headline service answers with two records; the second has the
JSON value null for its description. *)
Definition null_wire : World :=
  mkWorld
    (fun _ _ _ _ =>
       Some [ mkApiItem (Some "Council meets") (Some "Agenda published.")
                "https://example.org/council" "Gazette" (Some (Aware 1000));
              mkApiItem (Some "Cup final tonight") None
                "https://example.org/cup" "Sports Daily" (Some (Aware 2000)) ])
    clock (nodup String.string_dec).

(** The headline service answers with two records; the second has a
[publishedAt] that [datetime.fromisoformat] does not accept. *)
Definition half_dated_wire : World :=
  mkWorld
    (fun _ _ _ _ =>
       Some [ mkApiItem (Some "Council meets") (Some "Agenda published.")
                "https://example.org/council" "Gazette" (Some (Aware 1000));
              mkApiItem (Some "Cup final tonight") (Some "Kick-off at eight.")
                "https://example.org/cup" "Sports Daily" None ])
    clock (nodup String.string_dec).

(** The two articles of [wire] as [fetch_news] stores them. *)
Definition older : NewsArticle :=
  enrich wire
    (mkNewsArticle "Council meets" "Agenda published."
       "https://example.org/council" "Gazette" (Aware 1000) "General"
       "neutral" "" []).

Definition newer : NewsArticle :=
  enrich wire
    (mkNewsArticle "Cup final tonight" "Kick-off at eight."
       "https://example.org/cup" "Sports Daily" (Aware 2000) "General"
       "neutral" "" []).

(** A new agent with a key of its own. *)
Definition subscriber : NewsGenieAgent := __init__ (Some "0123456789abcdef").

(** ... after one fetch from the live service. *)
Definition two_stored : NewsGenieAgent :=
  snd (fetch_news wire subscriber "" "" 20).

(** ... and after a second fetch, made while the service is down, for
which the sample generator stands in. *)
Definition mixed_store : NewsGenieAgent :=
  snd (fetch_news offline two_stored "" "Health" 1).

(** [subscriber] after one fetch whose answer has an unreadable date. *)
Definition half_dated : NewsGenieAgent :=
  snd (fetch_news half_dated_wire subscriber "" "" 20).

(** [subscriber] after one fetch whose answer has a null description. *)
Definition miscounted : NewsGenieAgent :=
  snd (fetch_news null_wire subscriber "" "" 20).

(** [two_stored] with a category preference. *)
Definition sports_fan : NewsGenieAgent :=
  set_user_preferences two_stored (Some ["Sports"]) None None.

(** An article as [NewsArticle(title, description, "", source, t, category)]
builds it. *)
Definition article (t d src cat : string) (at_ : datetime) : NewsArticle :=
  mkNewsArticle t d "" src at_ cat "neutral" "" [].

(** One positive keyword twice, one negative keyword once. *)
Definition repeated_win : NewsArticle :=
  article "Win after win" "Critics fail to notice" "Sports Daily" "Sports"
    (Aware 3000).

(** A description that opens with a blank. *)
Definition led_by_blank : NewsArticle :=
  article "Rates" " Central bank raises rates again. Markets fall." "Wire"
    "Business" (Aware 4000).

(** A description with no period in it. *)
Definition no_period : NewsArticle :=
  article "Markets" "Markets rallied strongly today" "Wire" "Business"
    (Aware 5000).

End Fixtures.

(** * Proofs *)

(** ** The example agents *)

Lemma fixtures_reachable :
  reachable Fixtures.two_stored
  /\ reachable Fixtures.mixed_store
  /\ reachable Fixtures.sports_fan.
Proof.
  assert (H : reachable Fixtures.two_stored).
  { apply (reachable_step Fixtures.wire (CallFetch "" "" 20)
             Fixtures.subscriber);
      [apply reachable_init | apply step_fetch]. }
  split; [exact H | split].
  - apply (reachable_step Fixtures.offline (CallFetch "" "Health" 1)
             Fixtures.two_stored);
      [exact H | apply step_fetch].
  - apply (reachable_step Fixtures.offline
             (CallSetPreferences (Some ["Sports"]) None None)
             Fixtures.two_stored);
      [exact H | apply step_set_preferences].
Qed.

Lemma two_stored_articles :
  articles Fixtures.two_stored = [Fixtures.older; Fixtures.newer].
Proof. vm_compute. reflexivity. Qed.

(** ** Strings *)

#[local] Arguments String.append !_ _ / : simpl nomatch.

Section StringFacts.

Lemma prefix_spec (k s : string) :
  String.prefix k s = true <-> exists post, s = k +:+ post.
Proof.
  revert k; induction s as [|b s IH]; intros [|a k]; simpl.
  - split; [exists EmptyString; reflexivity | reflexivity].
  - split; [discriminate | intros [post H]; discriminate].
  - split; [intros _; eexists; reflexivity | reflexivity].
  - destruct (ascii_dec a b) as [->|Hne].
    + rewrite IH. split; intros [post H]; exists post; congruence.
    + split; [discriminate | intros [post H]; congruence].
Qed.

Lemma contains_nil (k : string) :
  PyStr.contains k EmptyString = String.prefix k EmptyString.
Proof. simpl. apply orb_false_r. Qed.

Lemma contains_cons (k : string) (b : ascii) (s : string) :
  PyStr.contains k (String b s)
  = String.prefix k (String b s) || PyStr.contains k s.
Proof. reflexivity. Qed.

(** [needle in hay] holds exactly when [needle] is a substring of [hay]. *)
Lemma contains_spec (k s : string) :
  PyStr.contains k s = true <-> is_substring k s.
Proof.
  unfold is_substring. induction s as [|b s IH].
  - rewrite contains_nil, prefix_spec. split.
    + intros [post H]. exists EmptyString, post. exact H.
    + intros [[|x pre] [post H]]; [exists post; exact H | discriminate].
  - rewrite contains_cons, orb_true_iff, prefix_spec, IH. split.
    + intros [[post H] | [pre [post H]]].
      * exists EmptyString, post. exact H.
      * exists (String b pre), post. simpl. now rewrite H.
    + intros [[|x pre] [post H]].
      * left. exists post. exact H.
      * right. simpl in H. injection H as _ H. exists pre, post. exact H.
Qed.

Lemma lower_char_idem (c : ascii) :
  PyStr.lower_char (PyStr.lower_char c) = PyStr.lower_char c.
Proof.
  destruct c as [[] [] [] [] [] [] [] []]; reflexivity.
Qed.

(** Lowering a lowered string changes nothing. *)
Lemma lower_idem (s : string) : PyStr.lower (PyStr.lower s) = PyStr.lower s.
Proof.
  induction s as [|c s IH]; simpl; [reflexivity|].
  now rewrite lower_char_idem, IH.
Qed.

End StringFacts.


(** ** Search *)

(** C9. [search_articles] returns exactly the stored articles whose lowered
title or lowered description has the lowered query as a substring, in store
order; queries that differ only in case give the same result. *)
Theorem search_articles_exact (ag : NewsGenieAgent) (query : string) :
  let q := PyStr.lower query in
  let matches := fun a =>
    is_substring q (PyStr.lower (title a))
    \/ is_substring q (PyStr.lower (description a)) in
  (forall a, In a (search_articles ag query) <-> In a (articles ag) /\ matches a)
  /\ (exists keep : NewsArticle -> bool,
        (forall a, keep a = true <-> matches a)
        /\ search_articles ag query = List.filter keep (articles ag))
  /\ (forall query', PyStr.lower query' = q ->
        search_articles ag query' = search_articles ag query)
  /\ search_articles ag q = search_articles ag query.
Proof.
  intros q matches.
  assert (Hkeep : forall a,
    PyStr.contains q (PyStr.lower (title a))
    || PyStr.contains q (PyStr.lower (description a)) = true <-> matches a).
  { intros a. unfold matches. now rewrite orb_true_iff, !contains_spec. }
  split; [|split; [|split]].
  - intros a. unfold search_articles. rewrite filter_In. fold q.
    now rewrite Hkeep.
  - eexists. split; [exact Hkeep | reflexivity].
  - intros query' Hq. unfold search_articles. now rewrite Hq.
  - unfold search_articles, q. now rewrite lower_idem.
Qed.

(** ** Preferences *)

(** C3, as stated, fails: a provided empty list does not replace the stored
list. *)
Lemma set_user_preferences_keeps_on_empty_list :
  pref_categories
    (user_preferences
       (set_user_preferences Fixtures.sports_fan (Some []) None None))
  = ["Sports"]
  /\ reachable Fixtures.sports_fan
  /\ pref_categories
       (user_preferences
          (set_user_preferences Fixtures.sports_fan (Some []) None None))
     <> AsSpecified.provided (Some []) ["Sports"].
Proof.
  split; [reflexivity | split; [apply fixtures_reachable | discriminate]].
Qed.

(** C3, amended. Each argument that is provided and non-empty replaces the
corresponding preference list wholesale; an argument that is omitted or is
the empty list leaves the stored list unchanged; the store, the counters and
the api key are untouched. *)
Theorem set_user_preferences_replaces_nonempty
    (ag : NewsGenieAgent) (categories keywords sources : option (list string)) :
  let ag' := set_user_preferences ag categories keywords sources in
  let updated := fun (arg : option (list string)) (old new : list string) =>
    (forall l, arg = Some l -> l <> [] -> new = l)
    /\ (arg = None \/ arg = Some [] -> new = old) in
  updated categories (pref_categories (user_preferences ag))
    (pref_categories (user_preferences ag'))
  /\ updated keywords (pref_keywords (user_preferences ag))
       (pref_keywords (user_preferences ag'))
  /\ updated sources (pref_sources (user_preferences ag))
       (pref_sources (user_preferences ag'))
  /\ articles ag' = articles ag
  /\ statistics ag' = statistics ag
  /\ api_key ag' = api_key ag.
Proof.
  intros ag' updated.
  assert (H : forall arg old, updated arg old (provided arg old)).
  { intros arg old. split.
    - intros l -> Hl. destruct l; [contradiction | reflexivity].
    - intros [-> | ->]; reflexivity. }
  repeat split; try apply H; reflexivity.
Qed.

(** ** Clearing *)

(** C7. After [clear_articles] the store is empty and every counter is back
to nothing, so [get_statistics] reports a zero total and three empty
mappings, and the preferences are the ones the agent had before. *)
Theorem clear_articles_resets (ag : NewsGenieAgent) :
  let ag' := clear_articles ag in
  let report := get_statistics ag' in
  articles ag' = []
  /\ statistics ag' = empty_statistics
  /\ report_total_articles report = 0%Z
  /\ report_by_category report = ∅
  /\ report_by_sentiment report = ∅
  /\ report_by_source report = ∅
  /\ report_user_preferences report = user_preferences ag
  /\ user_preferences ag' = user_preferences ag.
Proof. intros ag' report. repeat split. Qed.

(** ** Sentiment *)

Section Sentiment.

Variable text : string.

(** The number of keywords of [l] the test [keyword in text] accepts. *)
Let found (l : list string) : nat :=
  List.length (List.filter (fun k => PyStr.contains k text) l).

Lemma count_present_found (l : list string) (n : nat) :
  count_present text l n -> n = found l.
Proof.
  unfold found. induction 1 as [|k l n Hk _ IH|k l n Hk _ IH]; simpl.
  - reflexivity.
  - apply contains_spec in Hk. rewrite Hk. simpl. now rewrite IH.
  - destruct (PyStr.contains k text) eqn:E; [|exact IH].
    exfalso. apply Hk. now apply contains_spec.
Qed.

Lemma count_present_total (l : list string) : count_present text l (found l).
Proof.
  unfold found. induction l as [|k l IH]; simpl; [constructor|].
  destruct (PyStr.contains k text) eqn:E; simpl.
  - apply count_present_hit; [now apply contains_spec | exact IH].
  - apply count_present_miss; [|exact IH].
    intros H. apply contains_spec in H. congruence.
Qed.

Lemma score_keywords_same (label : string) (kws : list string)
    (sc : gmap string Z) :
  score_keywords text label kws sc !! label
  = (fun v => (v + Z.of_nat (found kws))%Z) <$> sc !! label.
Proof.
  unfold score_keywords, found. revert sc.
  induction kws as [|k kws IH]; intros sc; simpl.
  - destruct (sc !! label); simpl; [f_equal; lia | reflexivity].
  - rewrite IH. destruct (PyStr.contains k text); simpl.
    + rewrite lookup_alter_eq. destruct (sc !! label); simpl; [f_equal; lia | reflexivity].
    + reflexivity.
Qed.

Lemma score_keywords_other (label other : string) (kws : list string)
    (sc : gmap string Z) :
  label <> other ->
  score_keywords text label kws sc !! other = sc !! other.
Proof.
  intros Hne. unfold score_keywords. revert sc.
  induction kws as [|k kws IH]; intros sc; simpl; [reflexivity|].
  rewrite IH. destruct (PyStr.contains k text); [|reflexivity].
  now rewrite lookup_alter_ne.
Qed.

Lemma initial_scores_positive : initial_scores !! "positive" = Some 0%Z.
Proof. unfold initial_scores. apply lookup_insert_eq. Qed.

Lemma initial_scores_negative : initial_scores !! "negative" = Some 0%Z.
Proof.
  unfold initial_scores.
  rewrite lookup_insert_ne by discriminate. apply lookup_insert_eq.
Qed.

Lemma sentiment_scores_unfold :
  sentiment_scores text
  = score_keywords text "neutral" (keywords_of "neutral")
      (score_keywords text "negative" (keywords_of "negative")
         (score_keywords text "positive" (keywords_of "positive")
            initial_scores)).
Proof. reflexivity. Qed.

Lemma sentiment_scores_positive :
  score (sentiment_scores text) "positive"
  = Z.of_nat (found (keywords_of "positive")).
Proof.
  unfold score. rewrite sentiment_scores_unfold.
  rewrite !score_keywords_other by discriminate.
  rewrite score_keywords_same, initial_scores_positive. reflexivity.
Qed.

Lemma sentiment_scores_negative :
  score (sentiment_scores text) "negative"
  = Z.of_nat (found (keywords_of "negative")).
Proof.
  unfold score. rewrite sentiment_scores_unfold.
  rewrite score_keywords_other by discriminate.
  rewrite score_keywords_same.
  rewrite score_keywords_other by discriminate.
  rewrite initial_scores_negative. reflexivity.
Qed.

End Sentiment.

(** C2, as stated, fails: with two occurrences of one positive keyword and
one occurrence of a negative keyword the label is neutral, where counting
occurrences gives positive. *)
Lemma analyze_sentiment_ignores_repeats :
  AsSpecified.occurrences "positive" (article_text Fixtures.repeated_win) = 2%nat
  /\ AsSpecified.occurrences "negative" (article_text Fixtures.repeated_win) = 1%nat
  /\ AsSpecified.sentiment_by_occurrences Fixtures.repeated_win = "positive"
  /\ _analyze_sentiment Fixtures.repeated_win = "neutral"
  /\ _analyze_sentiment Fixtures.repeated_win
     <> AsSpecified.sentiment_by_occurrences Fixtures.repeated_win.
Proof. vm_compute. repeat split; discriminate. Qed.

(** C2, amended. Over the lowered text of title, a space and description,
the classifier counts for each list how many of its keywords occur at least
once as a substring; the label is positive exactly when more positive than
negative keywords occur, negative exactly when more negative than positive
ones occur, and neutral exactly when the two counts are equal. *)
Theorem analyze_sentiment_compares_present_keywords
    (a : NewsArticle) (p n : nat) :
  count_present (article_text a) (keywords_of "positive") p ->
  count_present (article_text a) (keywords_of "negative") n ->
  (_analyze_sentiment a = "positive" <-> (n < p)%nat)
  /\ (_analyze_sentiment a = "negative" <-> (p < n)%nat)
  /\ (_analyze_sentiment a = "neutral" <-> p = n).
Proof.
  intros Hp Hn.
  apply count_present_found in Hp, Hn.
  unfold _analyze_sentiment.
  rewrite sentiment_scores_positive, sentiment_scores_negative, <- Hp, <- Hn.
  destruct (Z.gtb_spec (Z.of_nat p) (Z.of_nat n)) as [Hgt|Hle].
  - repeat split; intros; try discriminate; try reflexivity; lia.
  - destruct (Z.gtb_spec (Z.of_nat n) (Z.of_nat p)) as [Hgt|Hle'].
    + repeat split; intros; try discriminate; try reflexivity; lia.
    + repeat split; intros; try discriminate; try reflexivity; lia.
Qed.

Lemma analyze_sentiment_compares_present_keywords_witness :
  count_present (article_text Fixtures.repeated_win) (keywords_of "positive") 1
  /\ count_present (article_text Fixtures.repeated_win) (keywords_of "negative") 1
  /\ (_analyze_sentiment Fixtures.repeated_win = "positive" <-> (1 < 1)%nat)
  /\ (_analyze_sentiment Fixtures.repeated_win = "negative" <-> (1 < 1)%nat)
  /\ (_analyze_sentiment Fixtures.repeated_win = "neutral" <-> 1%nat = 1%nat).
Proof.
  assert (Hp : count_present (article_text Fixtures.repeated_win)
                 (keywords_of "positive") 1)
    by exact (count_present_total _ _).
  assert (Hn : count_present (article_text Fixtures.repeated_win)
                 (keywords_of "negative") 1)
    by exact (count_present_total _ _).
  split; [exact Hp | split; [exact Hn |]].
  exact (analyze_sentiment_compares_present_keywords _ 1 1 Hp Hn).
Defined.

(** ** Summary *)

Lemma all_chars_nil (P : ascii -> bool) : all_chars P EmptyString.
Proof. constructor. Qed.

Lemma all_chars_cons (P : ascii -> bool) (c : ascii) (s : string) :
  all_chars P (String c s) <-> P c = true /\ all_chars P s.
Proof. unfold all_chars. simpl. apply Forall_cons_iff. Qed.

Lemma split_cons (sep : ascii) (s : string) :
  exists h r, PyStr.split sep s = h :: r.
Proof.
  induction s as [|c s [h [r IH]]]; simpl; [eauto|].
  destruct (Ascii.eqb c sep); [eauto|]. rewrite IH. eauto.
Qed.

(** [s.split(".")[0]] is the text in front of the first period. *)
Lemma split_hd_first_sentence (d : string) :
  first_sentence d (hd EmptyString (PyStr.split "." d)).
Proof.
  induction d as [|c d [Hall Hd]]; simpl.
  - split; [apply all_chars_nil | now left].
  - destruct (Ascii.eqb_spec c ".") as [->|Hc]; simpl.
    + split; [apply all_chars_nil | right; now exists d].
    + destruct (split_cons "." d) as [h [r E]]. rewrite E in *. simpl in *.
      split.
      * apply all_chars_cons. split; [|exact Hall].
        apply negb_true_iff. now apply Ascii.eqb_neq.
      * destruct Hd as [->|[rest ->]]; [now left | right; now exists rest].
Qed.

Lemma lstrip_spec (p : string) :
  (exists l, p = l +:+ PyStr.lstrip p /\ all_chars PyStr.is_space l)
  /\ not_space (head_char (PyStr.lstrip p)).
Proof.
  induction p as [|c p [[l [Hl Hsp]] Hhd]]; simpl.
  - split; [exists EmptyString; split; [reflexivity | apply all_chars_nil] | exact I].
  - destruct (PyStr.is_space c) eqn:E.
    + split; [|exact Hhd]. exists (String c l). simpl. split; [now rewrite <- Hl|].
      now apply all_chars_cons.
    + split; [|exact E]. exists EmptyString. split; [reflexivity | apply all_chars_nil].
Qed.

Lemma rstrip_spec (s : string) :
  (exists r, s = PyStr.rstrip s +:+ r /\ all_chars PyStr.is_space r)
  /\ not_space (last_char (PyStr.rstrip s))
  /\ (not_space (head_char s) -> not_space (head_char (PyStr.rstrip s))).
Proof.
  induction s as [|c s [[r [Hr Hsp]] [Hlast _]]]; simpl.
  - split; [|split; [exact I | intros _; exact I]].
    exists EmptyString. split; [reflexivity | apply all_chars_nil].
  - destruct (PyStr.rstrip s) as [|c' s'] eqn:E.
    + destruct (PyStr.is_space c) eqn:Ec; simpl.
      * split; [|split; [exact I | intros _; exact I]].
        exists (String c r). simpl in Hr. subst s.
        split; [reflexivity | now apply all_chars_cons].
      * split; [|split; [exact Ec | intros _; exact Ec]].
        exists r. simpl in Hr. subst s. now split.
    + split; [|split; [exact Hlast | intros H; exact H]].
      exists r. split; [change (String c s = String c (String c' s' +:+ r)); now f_equal | exact Hsp].
Qed.

(** [p.strip()] is [p] without the white space at its two ends. *)
Lemma strip_stripped (p : string) : stripped p (PyStr.strip p).
Proof.
  unfold stripped, PyStr.strip.
  destruct (lstrip_spec p) as [[l [Hl Hlsp]] Hhd].
  destruct (rstrip_spec (PyStr.lstrip p)) as [[r [Hr Hrsp]] [Hlast Hhead]].
  split; [|split; [now apply Hhead | exact Hlast]].
  exists l, r. split; [|now split].
  rewrite Hl at 1. now rewrite Hr at 1.
Qed.

(** [s[:n]] is the longest prefix of [s] of at most [n] characters. *)
Lemma take_prefix (n : nat) (s : string) :
  (exists rest, s = PyStr.take n s +:+ rest)
  /\ String.length (PyStr.take n s) = Nat.min n (String.length s).
Proof.
  revert s; induction n as [|n IH]; intros s.
  - split; [exists s; now destruct s | now destruct s].
  - destruct s as [|c s]; simpl.
    + split; [now exists EmptyString | reflexivity].
    + destruct (IH s) as [[rest Hrest] Hlen]. split.
      * exists rest. now rewrite <- Hrest.
      * now rewrite Hlen.
Qed.

Lemma first_sentence_unique (d p p' : string) :
  first_sentence d p -> first_sentence d p' -> p = p'.
Proof.
  revert d p'. induction p as [|c p IH]; intros d [|c' p'] [Hall Hd] [Hall' Hd'].
  - reflexivity.
  - apply all_chars_cons in Hall' as [Hc' _].
    apply negb_true_iff, Ascii.eqb_neq in Hc'.
    destruct Hd as [->|[rest ->]], Hd' as [E|[rest' E]];
      simpl in E; try discriminate; injection E as E _; congruence.
  - apply all_chars_cons in Hall as [Hc _].
    apply negb_true_iff, Ascii.eqb_neq in Hc.
    destruct Hd' as [->|[rest' ->]], Hd as [E|[rest E]];
      simpl in E; try discriminate; injection E as E _; congruence.
  - apply all_chars_cons in Hall as [_ Hall].
    apply all_chars_cons in Hall' as [_ Hall'].
    destruct d as [|x d].
    { destruct Hd as [E|[rest E]]; simpl in E; discriminate. }
    assert (c = x /\ first_sentence d p) as [-> Hp].
    { destruct Hd as [E|[rest E]]; simpl in E; injection E as -> ->;
        (split; [reflexivity | split; [exact Hall|]]); [now left | right; now exists rest]. }
    assert (c' = x /\ first_sentence d p') as [-> Hp'].
    { destruct Hd' as [E|[rest E]]; simpl in E; injection E as -> ->;
        (split; [reflexivity | split; [exact Hall'|]]); [now left | right; now exists rest]. }
    f_equal. exact (IH d p' Hp Hp').
Qed.

Lemma lstrip_spaces (l s : string) :
  all_chars PyStr.is_space l -> PyStr.lstrip (l +:+ s) = PyStr.lstrip s.
Proof.
  induction l as [|c l IH]; intros H; simpl; [reflexivity|].
  apply all_chars_cons in H as [-> H]. now apply IH.
Qed.

Lemma lstrip_id (s : string) :
  not_space (head_char s) -> PyStr.lstrip s = s.
Proof. destruct s as [|c s]; simpl; [reflexivity | now intros ->]. Qed.

Lemma rstrip_spaces (r : string) :
  all_chars PyStr.is_space r -> PyStr.rstrip r = EmptyString.
Proof.
  induction r as [|c r IH]; intros H; simpl; [reflexivity|].
  apply all_chars_cons in H as [-> H]. now rewrite IH.
Qed.

Lemma rstrip_app_spaces (q r : string) :
  all_chars PyStr.is_space r -> PyStr.rstrip (q +:+ r) = PyStr.rstrip q.
Proof.
  intros H. induction q as [|c q IH]; simpl; [now apply rstrip_spaces|].
  now rewrite IH.
Qed.

Lemma rstrip_id (q : string) :
  not_space (last_char q) -> PyStr.rstrip q = q.
Proof.
  induction q as [|c q IH]; simpl; [reflexivity|].
  destruct q as [|c' q]; [now intros -> |].
  intros H. now rewrite (IH H).
Qed.

(** The decomposition [stripped] asks for has one middle part only. *)
Lemma stripped_unique (p q : string) : stripped p q -> q = PyStr.strip p.
Proof.
  intros [[l [r [-> [Hl Hr]]]] [Hhd Hlast]]. unfold PyStr.strip.
  rewrite lstrip_spaces by exact Hl.
  destruct q as [|c q].
  - change (EmptyString +:+ r) with r.
    clear -Hr. induction r as [|c r IH]; [reflexivity|].
    apply all_chars_cons in Hr as [Hc Hr]. simpl. rewrite Hc. now apply IH.
  - rewrite lstrip_id by exact Hhd.
    rewrite rstrip_app_spaces by exact Hr. symmetry. now apply rstrip_id.
Qed.

(** C4, as stated, fails: the candidate is stripped of surrounding white
space, and a period is appended even when the description has none, so the
summary need not be the text up to and including the first period. *)
Lemma generate_summary_strips_and_appends :
  (AsSpecified.upto_first_period (description Fixtures.led_by_blank)
   = " Central bank raises rates again."
   /\ _generate_summary Fixtures.led_by_blank
      = "Central bank raises rates again."
   /\ _generate_summary Fixtures.led_by_blank
      <> AsSpecified.summary Fixtures.led_by_blank)
  /\ (~ is_substring "." (description Fixtures.no_period)
      /\ _generate_summary Fixtures.no_period
         = "Markets rallied strongly today."
      /\ _generate_summary Fixtures.no_period
         <> AsSpecified.summary Fixtures.no_period).
Proof.
  split; split; try reflexivity.
  - split; [reflexivity | vm_compute; discriminate].
  - intros H. apply contains_spec in H. vm_compute in H. discriminate.
  - split; [reflexivity | vm_compute; discriminate].
Qed.

(** C4, amended. The summary is the title when the description is empty.
Otherwise the candidate is the text in front of the first period (all of
the description when it has no period), without the white space at its two
ends, followed by a period; the summary is the candidate when it is longer
than 20 characters, and the first 100 characters of the description
followed by three dots otherwise.  The description
"Hello world. More text." falls in the last case. *)
Theorem generate_summary_first_sentence (a : NewsArticle) :
  (description a = EmptyString -> _generate_summary a = title a)
  /\ (description a <> EmptyString ->
      exists p q h,
        first_sentence (description a) p
        /\ stripped p q
        /\ (exists rest, description a = h +:+ rest)
        /\ String.length h = Nat.min 100 (String.length (description a))
        /\ _generate_summary a
           = if (20 <? String.length (q +:+ "."))%nat then q +:+ "."
             else h +:+ "...")
  /\ (description a = "Hello world. More text." ->
      _generate_summary a = "Hello world. More text....").
Proof.
  unfold _generate_summary. split; [|split].
  - now intros ->.
  - intros Hd.
    exists (hd EmptyString (PyStr.split "." (description a))),
      (PyStr.strip (hd EmptyString (PyStr.split "." (description a)))),
      (PyStr.take 100 (description a)).
    split; [apply split_hd_first_sentence|].
    split; [apply strip_stripped|].
    destruct (take_prefix 100 (description a)) as [Hpre Hlen].
    split; [exact Hpre|]. split; [exact Hlen|].
    destruct (description a); [contradiction | reflexivity].
  - now intros ->.
Qed.

(** ** Keywords *)

Lemma mem_In (x : string) (l : list string) :
  PyList.mem x l = true <-> In x l.
Proof.
  unfold PyList.mem. rewrite existsb_exists. split.
  - intros [y [Hy E]]. apply String.eqb_eq in E. now subst.
  - intros H. exists x. split; [exact H | apply String.eqb_refl].
Qed.

(** Keeping the last occurrence of each member is one admissible order of
enumeration. *)
Lemma nodup_set_iter_ok : set_iter_ok (nodup String.string_dec).
Proof.
  intros l. split; [apply NoDup_nodup | intros x; apply nodup_In].
Qed.

Lemma firstn_In {A : Type} (n : nat) (l : list A) (x : A) :
  In x (firstn n l) -> In x l.
Proof.
  revert l; induction n as [|n IH]; intros [|y l]; simpl; try tauto.
  intros [->|H]; [now left | right; now apply IH].
Qed.

Lemma firstn_NoDup {A : Type} (n : nat) (l : list A) :
  List.NoDup l -> List.NoDup (firstn n l).
Proof.
  revert l; induction n as [|n IH]; intros l H; [constructor|].
  destruct H as [|y l Hy Hl]; simpl; constructor.
  - intros Hin. apply Hy. now apply firstn_In in Hin.
  - now apply IH.
Qed.

(** C6. Whatever order the set of candidate words is enumerated in,
[_extract_keywords] returns at most 5 tokens, each a word of the lowered
text that is longer than 4 characters and is no stop word, and no token
twice. *)
Theorem extract_keywords_bounds (w : World) (a : NewsArticle) :
  set_iter_ok (set_iter w) ->
  (List.length (_extract_keywords w a) <= 5)%nat
  /\ Forall
       (fun k => (4 < String.length k)%nat
                 /\ ~ In k common_words
                 /\ In k (PyStr.findall_words (article_text a)))
       (_extract_keywords w a)
  /\ List.NoDup (_extract_keywords w a).
Proof.
  intros Hset. unfold _extract_keywords.
  set (cands := List.filter _ _).
  destruct (Hset cands) as [Hnd Hin].
  split; [|split].
  - rewrite length_firstn. apply Nat.le_min_l.
  - apply List.Forall_forall. intros k Hk.
    apply firstn_In, Hin in Hk. unfold cands in Hk.
    apply filter_In in Hk as [Hword Hk].
    apply andb_true_iff in Hk as [Hlen Hstop].
    apply Nat.ltb_lt in Hlen. apply negb_true_iff in Hstop.
    split; [exact Hlen | split; [|exact Hword]].
    intros Hc. apply mem_In in Hc. congruence.
  - now apply firstn_NoDup.
Qed.

Lemma extract_keywords_bounds_witness :
  set_iter_ok (set_iter Fixtures.offline)
  /\ (List.length (_extract_keywords Fixtures.offline Fixtures.led_by_blank) <= 5)%nat
  /\ Forall
       (fun k => (4 < String.length k)%nat
                 /\ ~ In k common_words
                 /\ In k (PyStr.findall_words (article_text Fixtures.led_by_blank)))
       (_extract_keywords Fixtures.offline Fixtures.led_by_blank)
  /\ List.NoDup (_extract_keywords Fixtures.offline Fixtures.led_by_blank).
Proof.
  split; [exact nodup_set_iter_ok|].
  exact (extract_keywords_bounds Fixtures.offline Fixtures.led_by_blank
           nodup_set_iter_ok).
Defined.

(** ** The sample generator *)

Section SampleLoop.

Variable w : World.
Variable cat : string.
Variable count : Z.

(** The test the loop body applies before it builds an article. *)
Let wanted (s : Sample) : bool :=
  negb (PyStr.truthy cat) || String.eqb (sample_category s) cat.

Let built (items : list (nat * Sample)) : list NewsArticle :=
  map (fun '(i, s) => sample_article w i s)
    (List.filter (fun '(_, s) => wanted s) items).

(** The loop appends the wanted entries in order until [count] articles
are held. *)
Lemma sample_loop_firstn (items : list (nat * Sample)) (acc : list NewsArticle) :
  sample_loop w cat count items acc
  = if (Z.of_nat (List.length acc) >=? count)%Z then acc
    else acc ++ firstn (Z.to_nat count - List.length acc) (built items).
Proof.
  revert acc. induction items as [|[i s] items IH]; intros acc; simpl.
  - destruct (_ >=? _)%Z; [reflexivity|].
    unfold built. simpl. now rewrite firstn_nil, app_nil_r.
  - destruct (Z.geb_spec (Z.of_nat (List.length acc)) count) as [Hge|Hlt];
      [reflexivity|].
    unfold built. simpl. unfold wanted at 1.
    destruct (PyStr.truthy cat) eqn:Ecat; simpl.
    + destruct (String.eqb (sample_category s) cat) eqn:E; simpl.
      * rewrite IH. rewrite length_app. simpl.
        destruct (Z.geb_spec (Z.of_nat (List.length acc + 1)) count) as [Hge|Hlt'].
        -- replace (Z.to_nat count - List.length acc)%nat with 1%nat by lia.
           reflexivity.
        -- replace (Z.to_nat count - List.length acc)%nat
             with (S (Z.to_nat count - (List.length acc + 1)))%nat by lia.
           simpl. now rewrite <- app_assoc.
      * rewrite IH.
        destruct (Z.geb_spec (Z.of_nat (List.length acc)) count); [lia | reflexivity].
    + rewrite IH. rewrite length_app. simpl.
      destruct (Z.geb_spec (Z.of_nat (List.length acc + 1)) count) as [Hge|Hlt'].
      * replace (Z.to_nat count - List.length acc)%nat with 1%nat by lia.
        reflexivity.
      * replace (Z.to_nat count - List.length acc)%nat
          with (S (Z.to_nat count - (List.length acc + 1)))%nat by lia.
        simpl. now rewrite <- app_assoc.
Qed.

Lemma filter_enumerate_length (l : list Sample) (start : nat) :
  List.length
    (List.filter (fun '(_, s) => wanted s) (combine (seq start (List.length l)) l))
  = List.length (List.filter wanted l).
Proof.
  revert start. induction l as [|s l IH]; intros start; simpl; [reflexivity|].
  destruct (wanted s); simpl; now rewrite IH.
Qed.

Lemma generate_sample_news_firstn :
  _generate_sample_news w cat count
  = firstn (Z.to_nat count)
      (built (PyList.enumerate (samples ++ samples ++ samples))).
Proof.
  unfold _generate_sample_news. rewrite sample_loop_firstn.
  change (Z.of_nat (List.length (@nil NewsArticle))) with 0%Z.
  change (List.length (@nil NewsArticle)) with 0%nat.
  unfold PyList.slice_to.
  destruct (Z.geb_spec 0 count) as [Hge|Hlt].
  - replace (Z.to_nat count) with 0%nat by lia.
    destruct (0 <=? count)%Z; [reflexivity | now rewrite firstn_nil].
  - destruct (Z.leb_spec 0 count) as [_|]; [|lia].
    rewrite Nat.sub_0_r. simpl app.
    rewrite firstn_firstn. now rewrite Nat.min_id.
Qed.

Lemma built_length :
  List.length (built (PyList.enumerate (samples ++ samples ++ samples)))
  = List.length (available cat).
Proof.
  unfold built, PyList.enumerate, available.
  rewrite length_map. apply filter_enumerate_length.
Qed.

Lemma built_category (items : list (nat * Sample)) (a : NewsArticle) :
  cat <> EmptyString -> In a (built items) -> category a = cat.
Proof.
  intros Hcat Ha. unfold built in Ha.
  apply in_map_iff in Ha as [[i s] [<- Hin]].
  apply filter_In in Hin as [_ Hw]. unfold wanted in Hw.
  destruct cat as [|c cat']; [contradiction|]. simpl in Hw.
  now apply String.eqb_eq in Hw.
Qed.

End SampleLoop.

(** The request of the module's own usage example: ten articles of
category Technology; the tripled catalog has six. *)
Example technology_batch (w : World) :
  List.length (available "Technology") = 6%nat
  /\ List.length (_generate_sample_news w "Technology" 10) = 6%nat
  /\ List.length (_generate_sample_news w "General" 10) = 0%nat
  /\ List.length (_generate_sample_news w "" 100) = 30%nat.
Proof. repeat split. Qed.

(** C5, as stated, fails: the loop runs over the catalog repeated three
times, so the generator serves a request beyond the number of catalog
entries of the category.  The catalog has two entries for "Technology" and
ten in all; ten articles asked for "Technology" give six, and a hundred
asked without a category give thirty. *)
Lemma generate_sample_news_exceeds_catalog :
  List.length (AsSpecified.catalog_available "Technology") = 2%nat
  /\ List.length (_generate_sample_news Fixtures.offline "Technology" 10)
     = 6%nat
  /\ List.length (_generate_sample_news Fixtures.offline "Technology" 10)
     <> Z.to_nat
          (Z.min 10
             (Z.of_nat
                (List.length (AsSpecified.catalog_available "Technology"))))
  /\ List.length (AsSpecified.catalog_available "") = 10%nat
  /\ List.length (_generate_sample_news Fixtures.offline "" 100) = 30%nat.
Proof.
  split; [reflexivity|].
  split; [vm_compute; reflexivity|].
  split; [vm_compute; discriminate|].
  split; [reflexivity|].
  vm_compute; reflexivity.
Qed.

(** C5, amended. For every category and count the generator returns a list
(it is a total function): its length is the smaller of the requested count
and the number of entries of the catalog repeated three times that pass
the category filter, which is three times the number of catalog entries
that pass it (thirty when no category is given; no article for a count
below one), and when a category is given every returned article carries
it. *)
Theorem generate_sample_news_count (w : World) (cat : string) (count : Z) :
  let batch := _generate_sample_news w cat count in
  List.length batch
  = Z.to_nat (Z.min count (Z.of_nat (List.length (available cat))))
  /\ List.length (available cat)
     = (3 * List.length (AsSpecified.catalog_available cat))%nat
  /\ (cat <> EmptyString -> Forall (fun a => category a = cat) batch)
  /\ (cat = EmptyString -> List.length (available cat) = 30%nat).
Proof.
  intros batch. unfold batch. rewrite generate_sample_news_firstn.
  split; [|split; [|split]].
  - rewrite length_firstn, built_length. lia.
  - unfold available, AsSpecified.catalog_available.
    rewrite !List.filter_app, !length_app. lia.
  - intros Hcat. apply List.Forall_forall. intros a Ha.
    apply firstn_In in Ha. exact (built_category w cat _ a Hcat Ha).
  - now intros ->.
Qed.

(** ** Sorting by publish time *)

Lemma dt_lt_ok (a b : datetime) (r : bool) :
  dt_lt a b = Ok r -> is_naive a = is_naive b /\ r = (ts a <? ts b)%Z.
Proof.
  destruct a, b; simpl; intros H; try discriminate;
    injection H as <-; now split.
Qed.

Lemma dt_lt_same_kind (a b : datetime) :
  is_naive a = is_naive b -> dt_lt a b = Ok (ts a <? ts b)%Z.
Proof. destruct a, b; simpl; intros H; try discriminate; reflexivity. Qed.

Lemma insert_desc_cons (x y : NewsArticle) (l : list NewsArticle) :
  insert_desc x (y :: l)
  = match dt_lt (published_at x) (published_at y) with
    | Ok true =>
        match insert_desc x l with
        | Ok r => Ok (y :: r)
        | Raise e => Raise e
        end
    | Ok false => Ok (x :: y :: l)
    | Raise e => Raise e
    end.
Proof.
  simpl. destruct (dt_lt _ _) as [[]|]; reflexivity.
Qed.

Lemma sort_desc_cons (x : NewsArticle) (l : list NewsArticle) :
  sort_desc (x :: l)
  = match sort_desc l with
    | Ok s => insert_desc x s
    | Raise e => Raise e
    end.
Proof. simpl. now destruct (sort_desc l). Qed.

Lemma insert_desc_perm (x : NewsArticle) (l r : list NewsArticle) :
  insert_desc x l = Ok r -> Permutation (x :: l) r.
Proof.
  revert r. induction l as [|y l IH]; intros r H.
  - injection H as <-. reflexivity.
  - rewrite insert_desc_cons in H.
    destruct (dt_lt _ _) as [[]|]; try discriminate.
    + destruct (insert_desc x l) as [r'|]; try discriminate.
      injection H as <-. rewrite perm_swap. constructor. now apply IH.
    + injection H as <-. reflexivity.
Qed.

Lemma insert_desc_sorted (x : NewsArticle) (l r : list NewsArticle) :
  sorted_desc l -> insert_desc x l = Ok r -> sorted_desc r.
Proof.
  unfold sorted_desc. revert r. induction l as [|y l IH]; intros r Hs H.
  - injection H as <-. repeat constructor.
  - rewrite insert_desc_cons in H.
    destruct (dt_lt _ _) as [[]|] eqn:E; try discriminate.
    + destruct (insert_desc x l) as [r'|] eqn:E'; try discriminate.
      injection H as <-. apply dt_lt_ok in E as [_ E].
      symmetry in E. apply Z.ltb_lt in E.
      inversion Hs as [|? ? Hl Hy]; subst.
      constructor; [now apply IH|].
      apply insert_desc_perm in E'.
      eapply Permutation_Forall; [exact E'|].
      constructor; [lia | exact Hy].
    + injection H as <-. apply dt_lt_ok in E as [_ E].
      symmetry in E. apply Z.ltb_ge in E.
      constructor; [exact Hs|].
      inversion Hs as [|? ? Hl Hy]; subst.
      constructor; [exact E|].
      eapply List.Forall_impl; [|exact Hy]. simpl. intros z Hz. lia.
Qed.

Lemma insert_desc_stable (x : NewsArticle) (l r : list NewsArticle) :
  insert_desc x l = Ok r -> same_order_among_equals (x :: l) r.
Proof.
  unfold same_order_among_equals.
  revert r. induction l as [|y l IH]; intros r H t.
  - now injection H as <-.
  - rewrite insert_desc_cons in H.
    destruct (dt_lt _ _) as [[]|] eqn:E; try discriminate.
    + destruct (insert_desc x l) as [r'|] eqn:E'; try discriminate.
      injection H as <-. apply dt_lt_ok in E as [_ E].
      symmetry in E. apply Z.ltb_lt in E.
      specialize (IH r' eq_refl t). simpl in *. rewrite IH.
      destruct (Z.eqb_spec (ts (published_at x)) t),
               (Z.eqb_spec (ts (published_at y)) t); try reflexivity; lia.
    + now injection H as <-.
Qed.

Lemma insert_desc_total (x : NewsArticle) (l : list NewsArticle) :
  (forall y, In y l -> is_naive (published_at x) = is_naive (published_at y)) ->
  exists r, insert_desc x l = Ok r.
Proof.
  induction l as [|y l IH]; intros H; [now eexists|].
  rewrite insert_desc_cons, dt_lt_same_kind by (apply H; now left).
  destruct (_ <? _)%Z; [|now eexists].
  destruct IH as [r ->]; [|now eexists].
  intros z Hz. apply H. now right.
Qed.

Lemma insert_desc_same_kind (x : NewsArticle) (l r : list NewsArticle) :
  comparable l -> insert_desc x l = Ok r -> comparable (x :: l).
Proof.
  intros Hl H.
  assert (Hx : forall y, In y l ->
            is_naive (published_at x) = is_naive (published_at y)).
  { destruct l as [|y l]; [intros ? []|].
    rewrite insert_desc_cons in H.
    destruct (dt_lt _ _) as [b|] eqn:E; try discriminate.
    apply dt_lt_ok in E as [E _].
    intros z Hz. rewrite E. apply Hl; [now left | exact Hz]. }
  intros a b [<-|Ha] [<-|Hb]; auto. symmetry. auto.
Qed.

(** What a successful sort returns. *)
Lemma sort_desc_ok (l r : list NewsArticle) :
  sort_desc l = Ok r ->
  Permutation l r /\ sorted_desc r /\ same_order_among_equals l r
  /\ comparable l.
Proof.
  revert r. induction l as [|x l IH]; intros r H.
  - injection H as <-. repeat split; try constructor. intros ? ? [].
  - rewrite sort_desc_cons in H.
    destruct (sort_desc l) as [s|] eqn:E; try discriminate.
    destruct (IH s eq_refl) as (Hp & Hs & Hst & Hc).
    split; [|split; [|split]].
    + rewrite <- (insert_desc_perm _ _ _ H). now constructor.
    + eapply insert_desc_sorted; eauto.
    + intros t. rewrite (insert_desc_stable _ _ _ H t).
      simpl. now rewrite (Hst t).
    + assert (Hcs : comparable s).
      { intros a b Ha Hb. apply Hc; eapply Permutation_in;
          try (symmetry; exact Hp); assumption. }
      pose proof (insert_desc_same_kind _ _ _ Hcs H) as Hxs.
      intros a b Ha Hb. apply Hxs.
      * destruct Ha as [<-|Ha]; [now left | right].
        eapply Permutation_in; [exact Hp | exact Ha].
      * destruct Hb as [<-|Hb]; [now left | right].
        eapply Permutation_in; [exact Hp | exact Hb].
Qed.

(** The sort returns exactly when all publish times can be ordered. *)
Lemma sort_desc_total (l : list NewsArticle) :
  comparable l -> exists r, sort_desc l = Ok r.
Proof.
  induction l as [|x l IH]; intros Hc; [now eexists|].
  rewrite sort_desc_cons.
  destruct IH as [s Hs].
  { intros a b Ha Hb. apply Hc; now right. }
  rewrite Hs. apply insert_desc_total.
  intros y Hy. apply Hc; [now left | right].
  apply sort_desc_ok in Hs as (Hp & _).
  eapply Permutation_in; [symmetry; exact Hp | exact Hy].
Qed.

Lemma sort_desc_raise (l : list NewsArticle) (e : exn) :
  sort_desc l = Raise e -> e = TypeError /\ ~ comparable l.
Proof.
  intros H. split; [now destruct e|].
  intros Hc. destruct (sort_desc_total l Hc) as [r Hr]. congruence.
Qed.

(** ** Personalized news *)

Lemma slice_to_nonneg {A : Type} (l : list A) (k : Z) :
  (0 <= k)%Z -> PyList.slice_to l k = firstn (Z.to_nat k) l.
Proof.
  intros H. unfold PyList.slice_to.
  destruct (Z.leb_spec 0 k); [reflexivity | lia].
Qed.

Lemma slice_to_negative {A : Type} (l : list A) (k : Z) :
  (k < 0)%Z ->
  PyList.slice_to l k = firstn (List.length l - Z.to_nat (- k)) l.
Proof.
  intros H. unfold PyList.slice_to.
  destruct (Z.leb_spec 0 k); [lia | reflexivity].
Qed.

(** With no preference set, [filtered] still names the stored list when it
is sorted. *)
Lemma get_personalized_news_no_preferences (ag : NewsGenieAgent) (limit : Z) :
  pref_categories (user_preferences ag) = [] ->
  pref_keywords (user_preferences ag) = [] ->
  pref_sources (user_preferences ag) = [] ->
  get_personalized_news ag limit
  = match sort_desc (articles ag) with
    | Ok sorted => Ok (PyList.slice_to sorted limit, with_articles ag sorted)
    | Raise e => Raise e
    end.
Proof.
  intros Hc Hk Hs. unfold get_personalized_news. rewrite Hc, Hk, Hs. simpl.
  now destruct (sort_desc (articles ag)).
Qed.

(** However the call ends, it leaves the stored articles rearranged at
most, and nothing else changed. *)
Lemma get_personalized_news_frame (ag ag' : NewsGenieAgent) (limit : Z)
    (r : list NewsArticle) :
  get_personalized_news ag limit = Ok (r, ag') ->
  Permutation (articles ag) (articles ag')
  /\ api_key ag' = api_key ag
  /\ user_preferences ag' = user_preferences ag
  /\ statistics ag' = statistics ag.
Proof.
  unfold get_personalized_news.
  set (f1 := if PyList.truthy (pref_categories _) then _ else _).
  set (f2 := if PyList.truthy (pref_keywords _) then _ else _).
  set (f3 := if PyList.truthy (pref_sources _) then _ else _).
  destruct (sort_desc (deref ag f3)) as [sorted|] eqn:E; simpl; try discriminate.
  intros H. injection H as _ <-.
  destruct f3 eqn:E3; simpl in *; [|now repeat split].
  repeat split. now apply sort_desc_ok in E as (Hp & _).
Qed.

(** When a preference is set, the sort works on a list of its own and the
agent is left as it was. *)
Lemma get_personalized_news_with_preferences (ag ag' : NewsGenieAgent)
    (limit : Z) (r : list NewsArticle) :
  pref_categories (user_preferences ag) <> []
  \/ pref_keywords (user_preferences ag) <> []
  \/ pref_sources (user_preferences ag) <> [] ->
  get_personalized_news ag limit = Ok (r, ag') ->
  ag' = ag.
Proof.
  unfold get_personalized_news. intros Hp.
  set (f1 := if PyList.truthy (pref_categories _) then _ else _).
  set (f2 := if PyList.truthy (pref_keywords _) then _ else _).
  set (f3 := if PyList.truthy (pref_sources _) then _ else _).
  assert (Hf : exists l, f3 = Fresh l).
  { unfold f3, f2, f1.
    destruct (pref_sources _) as [|? ?]; simpl; [|eauto].
    destruct (pref_keywords _) as [|? ?]; simpl; [|eauto].
    destruct (pref_categories _) as [|? ?]; simpl; [|eauto].
    destruct Hp as [H|[H|H]]; contradiction. }
  destruct Hf as [l ->].
  destruct (sort_desc _) as [sorted|]; simpl; try discriminate.
  now intros H; injection H as _ <-.
Qed.

(** C1, at an input where the code departs from it: with no preference
set, [get_personalized_news] sorts the stored list itself, so the store of
an agent that fetched [older] in front of [newer] holds them the other way
round after the call. *)
Theorem get_personalized_news_reorders_store :
  reachable Fixtures.two_stored
  /\ user_preferences Fixtures.two_stored = mkPreferences [] [] []
  /\ articles Fixtures.two_stored = [Fixtures.older; Fixtures.newer]
  /\ get_personalized_news Fixtures.two_stored 10
     = Ok ([Fixtures.newer; Fixtures.older],
           with_articles Fixtures.two_stored [Fixtures.newer; Fixtures.older])
  /\ articles (with_articles Fixtures.two_stored [Fixtures.newer; Fixtures.older])
     <> articles Fixtures.two_stored.
Proof.
  split; [apply fixtures_reachable|].
  split; [reflexivity|].
  split; [apply two_stored_articles|].
  split; [vm_compute; reflexivity|].
  rewrite two_stored_articles. simpl. vm_compute. discriminate.
Qed.

Lemma fixtures_with_faults_reachable :
  reachable Fixtures.half_dated /\ reachable Fixtures.miscounted.
Proof.
  split.
  - apply (reachable_step Fixtures.half_dated_wire (CallFetch "" "" 20)
             Fixtures.subscriber);
      [apply reachable_init | apply step_fetch].
  - apply (reachable_step Fixtures.null_wire (CallFetch "" "" 20)
             Fixtures.subscriber);
      [apply reachable_init | apply step_fetch].
Qed.

(** C8, at inputs where the code departs from it: the agent's own fetches
fill the store with publish times that cannot be ordered against each
other (a live answer followed by a sample fallback, or one live answer
with one date that cannot be parsed), and then, with no preference set,
[get_personalized_news] raises [TypeError] for every limit instead of
returning the stored articles sorted. *)
Theorem get_personalized_news_raises_on_mixed_store :
  (reachable Fixtures.mixed_store
   /\ user_preferences Fixtures.mixed_store = mkPreferences [] [] []
   /\ map published_at (articles Fixtures.mixed_store)
      = [Aware 1000; Aware 2000; Naive 1699989200000000]
   /\ forall limit,
        get_personalized_news Fixtures.mixed_store limit = Raise TypeError)
  /\ (reachable Fixtures.half_dated
      /\ user_preferences Fixtures.half_dated = mkPreferences [] [] []
      /\ map published_at (articles Fixtures.half_dated)
         = [Aware 1000; Naive 1700000000000000]
      /\ forall limit,
           get_personalized_news Fixtures.half_dated limit = Raise TypeError).
Proof.
  split.
  - split; [apply fixtures_reachable|].
    split; [reflexivity|]. split; [vm_compute; reflexivity|].
    intros limit.
    rewrite get_personalized_news_no_preferences by reflexivity.
    assert (E : sort_desc (articles Fixtures.mixed_store) = Raise TypeError)
      by (vm_compute; reflexivity).
    now rewrite E.
  - split; [apply fixtures_with_faults_reachable|].
    split; [reflexivity|]. split; [vm_compute; reflexivity|].
    intros limit.
    rewrite get_personalized_news_no_preferences by reflexivity.
    assert (E : sort_desc (articles Fixtures.half_dated) = Raise TypeError)
      by (vm_compute; reflexivity).
    now rewrite E.
Qed.

(** ** Counters *)

Lemma counter_sum_empty : counter_sum ∅ = 0%Z.
Proof. unfold counter_sum. apply map_fold_empty. Qed.

Lemma counter_sum_insert_fresh (d : gmap string Z) (k : string) (v : Z) :
  d !! k = None -> counter_sum (<[k := v]> d) = (v + counter_sum d)%Z.
Proof.
  intros H. unfold counter_sum.
  apply (map_fold_insert_L (fun _ v acc => (v + acc)%Z)); [|exact H].
  intros. lia.
Qed.

(** [d[k] += 1] adds one to the sum of the counters. *)
Lemma counter_sum_incr (d : gmap string Z) (k : string) :
  counter_sum (incr d k) = (counter_sum d + 1)%Z.
Proof.
  unfold incr. destruct (d !! k) as [v|] eqn:E; simpl.
  - rewrite <- (insert_delete_id d k v E) at 2.
    rewrite <- insert_delete_eq.
    rewrite !counter_sum_insert_fresh by apply lookup_delete_eq. lia.
  - rewrite counter_sum_insert_fresh by exact E. lia.
Qed.

Lemma record_article_counters (st : Statistics) (a : NewsArticle) (n : Z) :
  counters_at st n -> counters_at (record_article st a) (n + 1).
Proof.
  intros (Ht & Hc & Hs & Hsrc). unfold counters_at, record_article. simpl.
  rewrite !counter_sum_incr. lia.
Qed.

Lemma fold_record_counters (l : list NewsArticle) (st : Statistics) (n : Z) :
  counters_at st n ->
  counters_at (fold_left record_article l st) (n + Z.of_nat (List.length l)).
Proof.
  revert st n. induction l as [|a l IH]; intros st n H.
  - simpl. now rewrite Z.add_0_r.
  - simpl fold_left.
    replace (n + Z.of_nat (List.length (a :: l)))%Z
      with (n + 1 + Z.of_nat (List.length l))%Z by (simpl List.length; lia).
    apply IH. now apply record_article_counters.
Qed.

Lemma described_raw (a : NewsArticle) : described (raw a) = Some a.
Proof. now destruct a. Qed.

Lemma described_prefix_raw (l : list NewsArticle) :
  described_prefix (map raw l) = l /\ all_described (map raw l) = true.
Proof.
  induction l as [|a l [IH1 IH2]]; [now split|].
  cbn [map described_prefix]. rewrite described_raw, IH1.
  split; [reflexivity | exact IH2].
Qed.

(** The loop enriches and counts the articles in front of the first
description that is [None], and raises there if there is one. *)
Lemma process_articles_prefix (w : World) (todo : list RawArticle)
    (st : Statistics) :
  process_articles w todo st
  = (if all_described todo
     then Ok (map (enrich w) (described_prefix todo))
     else Raise TypeError,
     fold_left record_article (map (enrich w) (described_prefix todo)) st).
Proof.
  revert st. induction todo as [|r todo IH]; intros st; [reflexivity|].
  cbn [process_articles described_prefix].
  unfold all_described. cbn [forallb]. fold (all_described todo).
  unfold described. destruct (raw_description r) as [d|]; [|reflexivity].
  rewrite IH. cbn [andb map fold_left].
  now destruct (all_described todo).
Qed.

(** [fetch_news] processes one batch: the service's, or the samples. *)
Lemma fetch_news_batch (w : World) (ag : NewsGenieAgent)
    (query cat : string) (max_results : Z) :
  fetch_news w ag query cat max_results
  = let batch := raw_batch w ag query cat max_results in
    let done := map (enrich w) (described_prefix batch) in
    (if all_described batch then Ok done else Raise TypeError,
     mkAgent (api_key ag)
       (if all_described batch then articles ag ++ done else articles ag)
       (user_preferences ag)
       (fold_left record_article done (statistics ag))).
Proof.
  unfold fetch_news, raw_batch.
  destruct (PyStr.truthy (api_key ag) && negb (String.eqb (api_key ag) "demo")).
  - destruct (_fetch_from_api w ag query cat max_results) as [[|a l]|];
      simpl negb; cbv iota; rewrite process_articles_prefix; cbv zeta;
      now destruct (all_described _).
  - simpl negb; cbv iota. rewrite process_articles_prefix. cbv zeta.
    now destruct (all_described _).
Qed.

Lemma stats_consistent_counters (ag : NewsGenieAgent) :
  stats_consistent ag
  <-> counters_at (statistics ag) (Z.of_nat (List.length (articles ag))).
Proof.
  unfold stats_consistent, counters_at. simpl. split.
  - intros (H1 & H2 & H3 & H4). repeat split; congruence.
  - intros (H1 & H2 & H3 & H4). repeat split; congruence.
Qed.

Lemma init_consistent (key : option string) : stats_consistent (__init__ key).
Proof.
  unfold stats_consistent. simpl. rewrite counter_sum_empty. now repeat split.
Qed.

(** A fetch that returns keeps the counters in step with the store. *)
Lemma fetch_news_consistent (w : World) (ag : NewsGenieAgent)
    (query cat : string) (max_results : Z) (l : list NewsArticle) :
  stats_consistent ag ->
  fst (fetch_news w ag query cat max_results) = Ok l ->
  stats_consistent (snd (fetch_news w ag query cat max_results)).
Proof.
  rewrite !stats_consistent_counters. rewrite fetch_news_batch. cbv zeta.
  cbn [fst snd articles statistics].
  destruct (all_described _); [|discriminate]. intros H _.
  rewrite length_app, Nat2Z.inj_add. now apply fold_record_counters.
Qed.

(** Every call but a fetch that raises keeps the counters in step with
the store. *)
Lemma step_consistent (w : World) (c : Call) (ag ag' : NewsGenieAgent) :
  stats_consistent ag -> step w c ag ag' -> fetch_returned w c ag ->
  stats_consistent ag'.
Proof.
  intros H Hstep Hret. destruct Hstep; try exact H.
  - destruct Hret as [l Hl]. now apply (fetch_news_consistent _ _ _ _ _ l).
  - match goal with Hg : get_personalized_news _ _ = Ok _ |- _ =>
      apply get_personalized_news_frame in Hg as (Hp & _ & _ & Hst) end.
    unfold stats_consistent in *. rewrite Hst.
    now rewrite <- (Permutation_length Hp).
  - match goal with Hp : Permutation _ _ |- _ =>
      unfold stats_consistent in *; simpl;
      now rewrite <- (Permutation_length Hp) end.
  - unfold stats_consistent. simpl. rewrite counter_sum_empty. now repeat split.
Qed.

Lemma settled_consistent (ag : NewsGenieAgent) :
  settled ag -> stats_consistent ag.
Proof.
  induction 1 as [key|w c ag ag' _ IH Hstep Hret].
  - apply init_consistent.
  - exact (step_consistent w c ag ag' IH Hstep Hret).
Qed.

(** C10, at an input where the code departs from it: the headline service
answers with two records of which the second has a null description.  The
loop of [fetch_news] counts the first article, raises [TypeError] on the
second, and leaves the call before the store is extended: the agent is
left with a total of one, one entry in each counter dict, and an empty
store. *)
Theorem fetch_news_raise_leaves_counters_ahead :
  stats_consistent Fixtures.subscriber
  /\ fetch_news Fixtures.null_wire Fixtures.subscriber "" "" 20
     = (Raise TypeError, Fixtures.miscounted)
  /\ reachable Fixtures.miscounted
  /\ articles Fixtures.miscounted = []
  /\ total_articles (statistics Fixtures.miscounted) = 1%Z
  /\ counter_sum (by_category (statistics Fixtures.miscounted)) = 1%Z
  /\ counter_sum (by_sentiment (statistics Fixtures.miscounted)) = 1%Z
  /\ counter_sum (by_source (statistics Fixtures.miscounted)) = 1%Z
  /\ ~ stats_consistent Fixtures.miscounted.
Proof.
  split; [apply init_consistent|].
  split; [vm_compute; reflexivity|].
  split; [apply fixtures_with_faults_reachable|].
  split; [vm_compute; reflexivity|].
  split; [vm_compute; reflexivity|].
  split; [vm_compute; reflexivity|].
  split; [vm_compute; reflexivity|].
  split; [vm_compute; reflexivity|].
  intros [H _]. vm_compute in H. discriminate.
Qed.

(** * Further properties *)

(** ** What a fetch does to the agent *)

Lemma fold_record_total (l : list NewsArticle) (st : Statistics) :
  total_articles (fold_left record_article l st)
  = (total_articles st + Z.of_nat (List.length l))%Z.
Proof.
  revert st. induction l as [|a l IH]; intros st; simpl fold_left.
  - simpl. lia.
  - rewrite IH. simpl total_articles. simpl List.length. lia.
Qed.

Lemma fetch_news_ok_articles (w : World) (ag : NewsGenieAgent)
    (query cat : string) (max_results : Z) (l : list NewsArticle) :
  fst (fetch_news w ag query cat max_results) = Ok l ->
  articles (snd (fetch_news w ag query cat max_results)) = articles ag ++ l
  /\ statistics (snd (fetch_news w ag query cat max_results))
     = fold_left record_article l (statistics ag).
Proof.
  rewrite fetch_news_batch. cbv zeta. cbn [fst snd articles statistics].
  destruct (all_described _); [|discriminate].
  intros H. injection H as <-. now split.
Qed.

(** X1. [fetch_news] appends exactly the articles it returns, in the order
it returns them, behind what the store held, and adds their number to the
total counter; when it raises, the store is as it was; either way the
preferences and the api key are left alone. *)
Theorem fetch_news_appends_what_it_returns (w : World) (ag : NewsGenieAgent)
    (query cat : string) (max_results : Z) :
  let ag' := snd (fetch_news w ag query cat max_results) in
  match fst (fetch_news w ag query cat max_results) with
  | Ok returned =>
      articles ag' = articles ag ++ returned
      /\ total_articles (statistics ag')
         = (total_articles (statistics ag)
            + Z.of_nat (List.length returned))%Z
  | Raise _ => articles ag' = articles ag
  end
  /\ user_preferences ag' = user_preferences ag
  /\ api_key ag' = api_key ag.
Proof.
  intros ag'. unfold ag'. rewrite fetch_news_batch. cbv zeta.
  cbn [fst snd articles statistics user_preferences api_key].
  destruct (all_described _).
  - split; [|now split]. split; [reflexivity | apply fold_record_total].
  - now repeat split.
Qed.

(** X2. The batch is either all from the headline service or all samples:
with the demo key, or when the request fails or gives no usable record,
[fetch_news] returns the enriched samples; with a key of its own and at
least one usable record it works on those records and on no sample: it
returns them enriched when each has a text for its description, and
raises [TypeError] when the description of one is [None]. *)
Theorem fetch_news_live_or_samples (w : World) (ag : NewsGenieAgent)
    (query cat : string) (max_results : Z) :
  (api_key ag = "demo"
   \/ _fetch_from_api w ag query cat max_results = None
   \/ _fetch_from_api w ag query cat max_results = Some [] ->
   fst (fetch_news w ag query cat max_results)
   = Ok (map (enrich w) (_generate_sample_news w cat max_results)))
  /\ (forall l,
        api_key ag <> EmptyString -> api_key ag <> "demo" -> l <> [] ->
        _fetch_from_api w ag query cat max_results = Some l ->
        (all_described l = true ->
         fst (fetch_news w ag query cat max_results)
         = Ok (map (enrich w) (described_prefix l))
         /\ List.length (described_prefix l) = List.length l)
        /\ (all_described l = false ->
            fst (fetch_news w ag query cat max_results) = Raise TypeError)).
Proof.
  rewrite fetch_news_batch. cbv zeta. cbn [fst].
  assert (Hs : forall l, raw_batch w ag query cat max_results = map raw l ->
            (if all_described (raw_batch w ag query cat max_results)
             then Ok (map (enrich w)
                        (described_prefix
                           (raw_batch w ag query cat max_results)))
             else Raise TypeError)
            = Ok (map (enrich w) l)).
  { intros l ->. destruct (described_prefix_raw l) as [-> ->]. reflexivity. }
  split.
  - intros H. apply Hs. unfold raw_batch.
    destruct H as [Hk|[Hn|He]].
    + rewrite Hk. reflexivity.
    + rewrite Hn. now destruct (_ && _).
    + rewrite He. now destruct (_ && _).
  - intros l Hne Hdemo Hl Hfetch.
    assert (Hb : raw_batch w ag query cat max_results = l).
    { unfold raw_batch. rewrite Hfetch.
      destruct (api_key ag) as [|c k] eqn:Hk; [contradiction|].
      simpl PyStr.truthy.
      destruct (String.eqb_spec (String c k) "demo") as [E|_]; [contradiction|].
      simpl. now destruct l. }
    rewrite Hb. split; intros Hall; rewrite Hall; [|reflexivity].
    split; [reflexivity|].
    clear -Hall. induction l as [|r l IH]; [reflexivity|].
    unfold all_described in Hall. cbn [forallb] in Hall.
    apply andb_true_iff in Hall as [Hr Hall].
    cbn [described_prefix]. unfold described.
    destruct (raw_description r); [|discriminate].
    simpl. f_equal. now apply IH.
Qed.

(** ** What the store holds *)

Lemma append_not_empty_r (s t : string) :
  t <> EmptyString -> s +:+ t <> EmptyString.
Proof. destruct s; simpl; [auto | discriminate]. Qed.

Lemma enrich_fields (w : World) (a : NewsArticle) :
  title (enrich w a) = title a
  /\ description (enrich w a) = description a
  /\ url (enrich w a) = url a
  /\ source (enrich w a) = source a
  /\ published_at (enrich w a) = published_at a
  /\ category (enrich w a) = category a
  /\ sentiment (enrich w a) = _analyze_sentiment a
  /\ summary (enrich w a) = _generate_summary a.
Proof. now repeat split. Qed.

Lemma analyze_sentiment_ext (a b : NewsArticle) :
  title a = title b -> description a = description b ->
  _analyze_sentiment a = _analyze_sentiment b.
Proof.
  intros Ht Hd. unfold _analyze_sentiment, article_text. now rewrite Ht, Hd.
Qed.

Lemma generate_summary_ext (a b : NewsArticle) :
  title a = title b -> description a = description b ->
  _generate_summary a = _generate_summary b.
Proof. intros Ht Hd. unfold _generate_summary. now rewrite Ht, Hd. Qed.

Lemma analyze_sentiment_label (a : NewsArticle) :
  In (_analyze_sentiment a) ["positive"; "negative"; "neutral"]%string.
Proof.
  unfold _analyze_sentiment.
  destruct (_ >? _)%Z; [now left|].
  destruct (_ >? _)%Z; [right; now left | right; right; now left].
Qed.

Lemma generate_summary_not_empty (a : NewsArticle) :
  title a <> EmptyString -> _generate_summary a <> EmptyString.
Proof.
  intros Ht. unfold _generate_summary.
  destruct (description a) as [|c d] eqn:Hd; [exact Ht|].
  cbn [PyStr.truthy negb].
  destruct (20 <? _)%nat; apply append_not_empty_r; discriminate.
Qed.

Lemma enrich_enriched (w : World) (a : NewsArticle) :
  title a <> EmptyString -> enriched (enrich w a).
Proof.
  intros Ht.
  destruct (enrich_fields w a) as (E1 & E2 & _ & _ & _ & _ & E7 & E8).
  unfold enriched. rewrite E1, E7, E8.
  rewrite (analyze_sentiment_ext _ _ E1 E2), (generate_summary_ext _ _ E1 E2).
  repeat split; try assumption.
  - now apply generate_summary_not_empty.
  - apply analyze_sentiment_label.
Qed.

Lemma sample_loop_titles (w : World) (cat : string) (count : Z)
    (items : list (nat * Sample)) (acc : list NewsArticle) :
  Forall (fun a => title a <> EmptyString) acc ->
  Forall (fun a => title a <> EmptyString)
    (sample_loop w cat count items acc).
Proof.
  revert acc. induction items as [|[i s] items IH]; intros acc H; simpl;
    [exact H|].
  destruct (_ >=? _)%Z; [exact H|].
  destruct (_ && _); apply IH; [exact H|].
  apply Forall_app. split; [exact H|]. constructor; [|constructor].
  unfold sample_article. cbn [title].
  apply append_not_empty_r. simpl. discriminate.
Qed.

Lemma firstn_Forall {A : Type} (P : A -> Prop) (n : nat) (l : list A) :
  Forall P l -> Forall P (firstn n l).
Proof.
  intros H. apply List.Forall_forall. intros x Hx.
  apply firstn_In in Hx. revert x Hx. now apply List.Forall_forall.
Qed.

Lemma generate_sample_news_titles (w : World) (cat : string) (count : Z) :
  Forall (fun a => title a <> EmptyString)
    (_generate_sample_news w cat count).
Proof.
  unfold _generate_sample_news, PyList.slice_to.
  destruct (0 <=? count)%Z; apply firstn_Forall, sample_loop_titles;
    constructor.
Qed.

Lemma fetch_from_api_titles (w : World) (ag : NewsGenieAgent)
    (query cat : string) (max_results : Z) (l : list RawArticle) :
  _fetch_from_api w ag query cat max_results = Some l ->
  Forall (fun a => raw_title a <> EmptyString /\ raw_title a <> "[Removed]"
                   /\ raw_category a
                      = (if PyStr.truthy cat then cat else "General")
                   /\ raw_sentiment a = "neutral"
                   /\ raw_summary a = EmptyString /\ raw_keywords a = [])
    l.
Proof.
  unfold _fetch_from_api.
  destruct (http_get _ _ _ _ _) as [items|]; [|discriminate].
  intros H. injection H as <-.
  apply List.Forall_forall. intros a Ha.
  apply in_flat_map in Ha as [[i item] [_ Ha]].
  destruct (item_title item) as [t|]; [|destruct Ha].
  destruct (PyStr.truthy t) eqn:Et; [|destruct Ha].
  destruct (String.eqb_spec t "[Removed]") as [|Hr]; [destruct Ha|].
  destruct Ha as [<-|[]]. cbn. repeat split; try assumption.
  now destruct t.
Qed.

Lemma described_prefix_In (l : list RawArticle) (a : NewsArticle) :
  In a (described_prefix l) -> exists r, In r l /\ described r = Some a.
Proof.
  induction l as [|r l IH]; [intros []|].
  cbn [described_prefix]. destruct (described r) as [a0|] eqn:E; [|intros []].
  intros [<-|H].
  - exists r. split; [now left | exact E].
  - destruct (IH H) as [r' [Hin Hd]]. exists r'. split; [now right | exact Hd].
Qed.

Lemma described_title (r : RawArticle) (a : NewsArticle) :
  described r = Some a ->
  title a = raw_title r /\ published_at a = raw_published_at r.
Proof.
  unfold described. destruct (raw_description r); [|discriminate].
  intros H. injection H as <-. now split.
Qed.

Lemma raw_batch_titles (w : World) (ag : NewsGenieAgent)
    (query cat : string) (max_results : Z) :
  Forall (fun a => title a <> EmptyString)
    (described_prefix (raw_batch w ag query cat max_results)).
Proof.
  assert (Hs : Forall (fun a => title a <> EmptyString)
                 (described_prefix
                    (map raw (_generate_sample_news w cat max_results)))).
  { rewrite (proj1 (described_prefix_raw _)).
    apply generate_sample_news_titles. }
  unfold raw_batch.
  destruct (_ && _); [|exact Hs].
  destruct (_fetch_from_api w ag query cat max_results) as [[|a l]|] eqn:E;
    try exact Hs.
  apply fetch_from_api_titles in E. rewrite List.Forall_forall in E.
  apply List.Forall_forall. intros x Hx.
  apply described_prefix_In in Hx as [r [Hr Hd]].
  apply described_title in Hd as [-> _]. now apply E.
Qed.

Lemma step_articles (w : World) (c : Call) (ag ag' : NewsGenieAgent) :
  step w c ag ag' ->
  Permutation (articles ag) (articles ag')
  \/ articles ag' = []
  \/ exists q cat m,
       c = CallFetch q cat m
       /\ articles ag'
          = articles ag
            ++ map (enrich w) (described_prefix (raw_batch w ag q cat m)).
Proof.
  intros Hstep. destruct Hstep; try (left; reflexivity).
  - rewrite fetch_news_batch. cbv zeta. cbn [snd articles].
    destruct (all_described _); [|left; reflexivity].
    right; right. exists q, c, m. now split.
  - left. match goal with Hg : get_personalized_news _ _ = Ok _ |- _ =>
      now apply get_personalized_news_frame in Hg as (Hp & _) end.
  - left. assumption.
  - right; left. reflexivity.
Qed.

Lemma reachable_enriched (ag : NewsGenieAgent) :
  reachable ag -> Forall enriched (articles ag).
Proof.
  induction 1 as [key|w c ag ag' _ IH Hstep]; [constructor|].
  destruct (step_articles w c ag ag' Hstep) as [Hp|[->|(q & cat & m & _ & ->)]].
  - eapply Permutation_Forall; [exact Hp | exact IH].
  - constructor.
  - apply Forall_app. split; [exact IH|].
    apply List.Forall_forall. intros a Ha.
    apply in_map_iff in Ha as [a0 [<- Ha0]].
    apply enrich_enriched.
    pose proof (raw_batch_titles w ag q cat m) as Ht.
    rewrite List.Forall_forall in Ht. now apply Ht.
Qed.

(** X3. No article is stored half-enriched: in every agent a program can
hold, each stored article has a non-empty title and a non-empty summary,
its sentiment and summary are the ones the pipeline computes from its
title and description, and its sentiment is one of the three labels. *)
Theorem stored_articles_are_enriched (ag : NewsGenieAgent) (a : NewsArticle) :
  reachable ag -> In a (articles ag) -> enriched a.
Proof.
  intros Hr Ha. apply reachable_enriched in Hr.
  rewrite List.Forall_forall in Hr. now apply Hr.
Qed.

Lemma stored_articles_are_enriched_witness :
  reachable Fixtures.two_stored
  /\ In Fixtures.newer (articles Fixtures.two_stored)
  /\ enriched Fixtures.newer.
Proof.
  assert (Hr : reachable Fixtures.two_stored) by apply fixtures_reachable.
  assert (Ha : In Fixtures.newer (articles Fixtures.two_stored)).
  { rewrite two_stored_articles. right. now left. }
  split; [exact Hr | split; [exact Ha|]].
  exact (stored_articles_are_enriched Fixtures.two_stored Fixtures.newer Hr Ha).
Defined.

(** X4. What [_fetch_from_api] hands over, when it returns: no article
with an empty title or the title "[Removed]"; every article carries the
requested category, or "General" when none was requested, and the
constructor's defaults in its enrichment fields. *)
Theorem fetch_from_api_usable_records (w : World) (ag : NewsGenieAgent)
    (query cat : string) (max_results : Z) (l : list RawArticle)
    (a : RawArticle) :
  _fetch_from_api w ag query cat max_results = Some l ->
  In a l ->
  raw_title a <> EmptyString
  /\ raw_title a <> "[Removed]"
  /\ raw_category a = (if PyStr.truthy cat then cat else "General")
  /\ raw_sentiment a = "neutral"
  /\ raw_summary a = EmptyString
  /\ raw_keywords a = [].
Proof.
  intros H Ha. apply fetch_from_api_titles in H.
  rewrite List.Forall_forall in H. now apply H.
Qed.

Lemma fetch_from_api_usable_records_witness :
  _fetch_from_api Fixtures.null_wire Fixtures.subscriber "" "" 20
  = Some [mkRawArticle "Council meets" (Some "Agenda published.")
            "https://example.org/council" "Gazette" (Aware 1000) "General"
            "neutral" "" [];
          mkRawArticle "Cup final tonight" None
            "https://example.org/cup" "Sports Daily" (Aware 2000) "General"
            "neutral" "" []]
  /\ raw_title (mkRawArticle "Cup final tonight" None
                  "https://example.org/cup" "Sports Daily" (Aware 2000)
                  "General" "neutral" "" [])
     <> EmptyString
  /\ raw_title (mkRawArticle "Cup final tonight" None
                  "https://example.org/cup" "Sports Daily" (Aware 2000)
                  "General" "neutral" "" [])
     <> "[Removed]"
  /\ raw_category (mkRawArticle "Cup final tonight" None
                     "https://example.org/cup" "Sports Daily" (Aware 2000)
                     "General" "neutral" "" [])
     = (if PyStr.truthy "" then "" else "General")
  /\ raw_sentiment (mkRawArticle "Cup final tonight" None
                      "https://example.org/cup" "Sports Daily" (Aware 2000)
                      "General" "neutral" "" [])
     = "neutral"
  /\ raw_summary (mkRawArticle "Cup final tonight" None
                    "https://example.org/cup" "Sports Daily" (Aware 2000)
                    "General" "neutral" "" [])
     = EmptyString
  /\ raw_keywords (mkRawArticle "Cup final tonight" None
                     "https://example.org/cup" "Sports Daily" (Aware 2000)
                     "General" "neutral" "" [])
     = [].
Proof.
  assert (H : _fetch_from_api Fixtures.null_wire Fixtures.subscriber "" "" 20
              = Some [mkRawArticle "Council meets" (Some "Agenda published.")
                        "https://example.org/council" "Gazette" (Aware 1000)
                        "General" "neutral" "" [];
                      mkRawArticle "Cup final tonight" None
                        "https://example.org/cup" "Sports Daily" (Aware 2000)
                        "General" "neutral" "" []])
    by reflexivity.
  split; [exact H|].
  apply (fetch_from_api_usable_records _ _ _ _ _ _ _ H).
  right. left. reflexivity.
Defined.

(** ** Counters and queries *)

Lemma incr_lookup (d : gmap string Z) (k k' : string) :
  incr d k !! k'
  = if String.eqb k k' then Some (default 0%Z (d !! k) + 1)%Z else d !! k'.
Proof.
  unfold incr. destruct (String.eqb_spec k k') as [->|Hne].
  - apply lookup_insert_eq.
  - now apply lookup_insert_ne.
Qed.

Lemma counter_entry_succ (n : nat) :
  Some (default 0%Z (counter_entry n) + 1)%Z = counter_entry (S n).
Proof. destruct n; simpl; f_equal; lia. Qed.

Lemma tally_snoc (f : NewsArticle -> string) (l : list NewsArticle)
    (a : NewsArticle) (k : string) :
  tally f (l ++ [a]) k
  = if String.eqb (f a) k then S (tally f l k) else tally f l k.
Proof.
  unfold tally. rewrite List.filter_app, length_app. simpl.
  destruct (String.eqb (f a) k); simpl; lia.
Qed.

Lemma tally_perm (f : NewsArticle -> string) (l l' : list NewsArticle)
    (k : string) :
  Permutation l l' -> tally f l k = tally f l' k.
Proof.
  unfold tally. induction 1 as [|x l l' _ IH|x y l|l l' l'' _ IH1 _ IH2]; simpl.
  - reflexivity.
  - destruct (String.eqb (f x) k); simpl; now rewrite IH.
  - destruct (String.eqb (f x) k), (String.eqb (f y) k); reflexivity.
  - now rewrite IH1.
Qed.

Lemma dict_exact_incr (f : NewsArticle -> string) (l : list NewsArticle)
    (d : gmap string Z) (a : NewsArticle) :
  dict_exact f l d -> dict_exact f (l ++ [a]) (incr d (f a)).
Proof.
  intros H k. rewrite incr_lookup, tally_snoc.
  destruct (String.eqb_spec (f a) k) as [<-|Hne]; [|apply H].
  rewrite H. apply counter_entry_succ.
Qed.

Lemma fold_record_exact (batch l : list NewsArticle) (st : Statistics) :
  dict_exact category l (by_category st)
  /\ dict_exact sentiment l (by_sentiment st)
  /\ dict_exact source l (by_source st) ->
  dict_exact category (l ++ batch)
    (by_category (fold_left record_article batch st))
  /\ dict_exact sentiment (l ++ batch)
       (by_sentiment (fold_left record_article batch st))
  /\ dict_exact source (l ++ batch)
       (by_source (fold_left record_article batch st)).
Proof.
  revert l st. induction batch as [|a batch IH]; intros l st (Hc & Hs & Hsrc).
  - rewrite app_nil_r. now repeat split.
  - simpl fold_left.
    replace (l ++ a :: batch) with ((l ++ [a]) ++ batch)
      by now rewrite <- app_assoc.
    apply IH. unfold record_article. cbn [by_category by_sentiment by_source].
    repeat split; now apply dict_exact_incr.
Qed.

Lemma counters_exact_dicts (ag : NewsGenieAgent) :
  counters_exact ag
  <-> dict_exact category (articles ag) (by_category (statistics ag))
      /\ dict_exact sentiment (articles ag) (by_sentiment (statistics ag))
      /\ dict_exact source (articles ag) (by_source (statistics ag)).
Proof.
  unfold counters_exact, dict_exact. split.
  - intros H. repeat split; intros k; apply (H k).
  - intros (Hc & Hs & Hsrc) k. repeat split; [apply Hc | apply Hs | apply Hsrc].
Qed.

Lemma step_counters_exact (w : World) (c : Call) (ag ag' : NewsGenieAgent) :
  counters_exact ag -> step w c ag ag' -> fetch_returned w c ag ->
  counters_exact ag'.
Proof.
  intros H Hstep Hret. destruct Hstep; try exact H.
  - destruct Hret as [l Hl]. apply counters_exact_dicts in H.
    apply counters_exact_dicts. revert Hl.
    rewrite fetch_news_batch. cbv zeta.
    cbn [fst snd articles statistics].
    destruct (all_described _); [intros _|discriminate].
    now apply fold_record_exact.
  - match goal with Hg : get_personalized_news _ _ = Ok _ |- _ =>
      apply get_personalized_news_frame in Hg as (Hp & _ & _ & Hst) end.
    intros k. rewrite Hst, <- !(tally_perm _ _ _ k Hp). apply H.
  - match goal with Hp : Permutation _ _ |- _ =>
      intros k; cbn [with_articles articles statistics];
      rewrite <- !(tally_perm _ _ _ k Hp); apply H end.
  - intros k. cbn. now rewrite lookup_empty.
Qed.

Lemma settled_counters_exact (ag : NewsGenieAgent) :
  settled ag -> counters_exact ag.
Proof.
  induction 1 as [key|w c ag ag' _ IH Hstep Hret].
  - intros k. cbn. now rewrite lookup_empty.
  - exact (step_counters_exact w c ag ag' IH Hstep Hret).
Qed.

Lemma fixtures_settled :
  settled Fixtures.two_stored /\ settled Fixtures.mixed_store.
Proof.
  assert (H2 : settled Fixtures.two_stored).
  { apply (settled_step Fixtures.wire (CallFetch "" "" 20) Fixtures.subscriber).
    - apply settled_init.
    - apply step_fetch.
    - eexists. vm_compute. reflexivity. }
  split; [exact H2|].
  apply (settled_step Fixtures.offline (CallFetch "" "Health" 1)
           Fixtures.two_stored).
  - exact H2.
  - apply step_fetch.
  - eexists. vm_compute. reflexivity.
Qed.

(** X5. In an agent whose fetches have all returned, the statistics agree
with the queries key by key: the per-category entry of [get_statistics]
for a category is the number of articles [get_articles_by_category]
returns for it, the per-sentiment entry is the number
[get_articles_by_sentiment] returns, the per-source entry is the number of
stored articles of that source, and a key for which that number is zero
has no entry at all. *)
Theorem statistics_agree_with_queries (ag : NewsGenieAgent) (k : string) :
  settled ag ->
  report_by_category (get_statistics ag) !! k
  = counter_entry (List.length (get_articles_by_category ag k))
  /\ report_by_sentiment (get_statistics ag) !! k
     = counter_entry (List.length (get_articles_by_sentiment ag k))
  /\ report_by_source (get_statistics ag) !! k
     = counter_entry (tally source (articles ag) k).
Proof.
  intros Hr. exact (settled_counters_exact ag Hr k).
Qed.

Lemma statistics_agree_with_queries_witness :
  settled Fixtures.mixed_store
  /\ report_by_category (get_statistics Fixtures.mixed_store) !! "Health"
     = counter_entry
         (List.length (get_articles_by_category Fixtures.mixed_store "Health"))
  /\ report_by_sentiment (get_statistics Fixtures.mixed_store) !! "Health"
     = counter_entry
         (List.length (get_articles_by_sentiment Fixtures.mixed_store "Health"))
  /\ report_by_source (get_statistics Fixtures.mixed_store) !! "Health"
     = counter_entry (tally source (articles Fixtures.mixed_store) "Health").
Proof.
  assert (Hr : settled Fixtures.mixed_store) by apply fixtures_settled.
  split; [exact Hr|].
  exact (statistics_agree_with_queries Fixtures.mixed_store "Health" Hr).
Defined.

(** X26. The counters keep step with the store through every call that
does not leave [fetch_news] by an exception: when the total equals the
number of stored articles and the sum of each of the three counter dicts,
it does so again after a fetch that returns, a preference update, any
read, and a clear. *)
Theorem statistics_invariant_while_fetches_return (w : World) (c : Call)
    (ag ag' : NewsGenieAgent) :
  stats_consistent ag -> step w c ag ag' -> fetch_returned w c ag ->
  stats_consistent ag'.
Proof.
  intros H Hstep Hret. exact (step_consistent w c ag ag' H Hstep Hret).
Qed.

Lemma statistics_invariant_while_fetches_return_witness :
  stats_consistent Fixtures.two_stored
  /\ step Fixtures.offline (CallFetch "" "Health" 1) Fixtures.two_stored
       Fixtures.mixed_store
  /\ fetch_returned Fixtures.offline (CallFetch "" "Health" 1)
       Fixtures.two_stored
  /\ stats_consistent Fixtures.mixed_store.
Proof.
  assert (H0 : stats_consistent Fixtures.two_stored)
    by (apply settled_consistent, fixtures_settled).
  assert (H1 : step Fixtures.offline (CallFetch "" "Health" 1)
                 Fixtures.two_stored Fixtures.mixed_store)
    by apply step_fetch.
  assert (H2 : fetch_returned Fixtures.offline (CallFetch "" "Health" 1)
                 Fixtures.two_stored)
    by (eexists; vm_compute; reflexivity).
  split; [exact H0 | split; [exact H1 | split; [exact H2|]]].
  exact (statistics_invariant_while_fetches_return Fixtures.offline
           (CallFetch "" "Health" 1) Fixtures.two_stored Fixtures.mixed_store
           H0 H1 H2).
Defined.

(** ** Personalized news, with and without preferences *)

Lemma filter_filter_and {A : Type} (f g : A -> bool) (l : list A) :
  List.filter g (List.filter f l) = List.filter (fun x => f x && g x) l.
Proof.
  induction l as [|x l IH]; simpl; [reflexivity|].
  destruct (f x); simpl; [|exact IH]. destruct (g x); now rewrite IH.
Qed.

Lemma filter_all {A : Type} (l : list A) : List.filter (fun _ => true) l = l.
Proof. induction l as [|x l IH]; simpl; [reflexivity | now rewrite IH]. Qed.

Lemma truthy_false {A : Type} (l : list A) :
  PyList.truthy l = false <-> l = [].
Proof. destruct l; simpl; split; intros H; try reflexivity; discriminate. Qed.

Lemma deref_stage (ag : NewsGenieAgent) (b : bool)
    (c : NewsArticle -> bool) (r : list_ref) :
  deref ag (if b then Fresh (List.filter c (deref ag r)) else r)
  = List.filter (fun a => negb b || c a) (deref ag r).
Proof. destruct b; simpl; [reflexivity | symmetry; apply filter_all]. Qed.

(** The three filter stages in sequence select what the three tests
together select; the sort then works on the stored list itself exactly
when no stage ran. *)
Lemma get_personalized_news_selected (ag : NewsGenieAgent) (limit : Z) :
  get_personalized_news ag limit
  = match sort_desc (selected ag) with
    | Ok sorted =>
        Ok (PyList.slice_to sorted limit,
            if PyList.truthy (pref_categories (user_preferences ag))
               || PyList.truthy (pref_keywords (user_preferences ag))
               || PyList.truthy (pref_sources (user_preferences ag))
            then ag else with_articles ag sorted)
    | Raise e => Raise e
    end.
Proof.
  unfold get_personalized_news, selected, passes.
  set (b1 := PyList.truthy (pref_categories (user_preferences ag))).
  set (b2 := PyList.truthy (pref_keywords (user_preferences ag))).
  set (b3 := PyList.truthy (pref_sources (user_preferences ag))).
  set (f1 := if b1 then _ else _).
  set (f2 := if b2 then _ else _).
  set (f3 := if b3 then _ else _).
  assert (Hd : deref ag f3
               = List.filter
                   (fun a =>
                      (negb b1 || PyList.mem (category a)
                                    (pref_categories (user_preferences ag)))
                      && (negb b2 || keyword_match
                                       (pref_keywords (user_preferences ag)) a)
                      && (negb b3 || PyList.mem (source a)
                                       (pref_sources (user_preferences ag))))
                   (articles ag)).
  { unfold f3. rewrite deref_stage. unfold f2. rewrite deref_stage.
    unfold f1. rewrite deref_stage. cbn [deref].
    rewrite !filter_filter_and. apply filter_ext. intros a. apply andb_assoc. }
  rewrite Hd.
  destruct (sort_desc _) as [sorted|e]; [|reflexivity].
  cbn. do 2 f_equal. unfold f3, f2, f1. clearbody b1 b2 b3.
  destruct b1, b2, b3; reflexivity.
Qed.

Lemma passes_meets (p : Preferences) (a : NewsArticle) :
  passes p a = true <-> meets p a.
Proof.
  unfold passes, meets, keyword_match.
  rewrite !andb_true_iff, !orb_true_iff, !negb_true_iff, !truthy_false,
    !mem_In, existsb_exists.
  split.
  - intros [[Hc Hk] Hs]. repeat split.
    + intros Hne. destruct Hc; [contradiction | assumption].
    + intros Hne. destruct Hk as [|[k [Hin Hm]]]; [contradiction|].
      exists k. split; [exact Hin|].
      apply orb_true_iff in Hm. now rewrite !contains_spec in Hm.
    + intros Hne. destruct Hs; [contradiction | assumption].
  - intros (Hc & Hk & Hs). repeat split.
    + destruct (pref_categories p); [now left | right; now apply Hc].
    + destruct (pref_keywords p) as [|k0 ks] eqn:E; [now left | right].
      destruct Hk as [k [Hin Hm]]; [discriminate|].
      exists k. split; [exact Hin|].
      apply orb_true_iff. now rewrite !contains_spec.
    + destruct (pref_sources p); [now left | right; now apply Hs].
Qed.

Lemma slice_to_In {A : Type} (l : list A) (k : Z) (x : A) :
  In x (PyList.slice_to l k) -> In x l.
Proof. unfold PyList.slice_to. destruct (0 <=? k)%Z; apply firstn_In. Qed.

Lemma firstn_sorted (n : nat) (l : list NewsArticle) :
  sorted_desc l -> sorted_desc (firstn n l).
Proof.
  unfold sorted_desc. revert l. induction n as [|n IH]; intros l H;
    [constructor|].
  destruct H as [|x l Hl Hx]; simpl; constructor.
  - now apply IH.
  - now apply firstn_Forall.
Qed.

(** X6. What [get_personalized_news] returns, when it returns: stored
articles only, each passing every test whose preference list is not
empty, latest first, and no more than [limit] of them for a limit that is
not negative; when the limit is at least the size of the store, every
stored article that passes the tests is returned. *)
Theorem get_personalized_news_selects (ag ag' : NewsGenieAgent) (limit : Z)
    (r : list NewsArticle) :
  get_personalized_news ag limit = Ok (r, ag') ->
  (forall a, In a r -> In a (articles ag) /\ meets (user_preferences ag) a)
  /\ sorted_desc r
  /\ ((0 <= limit)%Z -> (Z.of_nat (List.length r) <= limit)%Z)
  /\ ((Z.of_nat (List.length (articles ag)) <= limit)%Z ->
      forall a, In a (articles ag) -> meets (user_preferences ag) a -> In a r).
Proof.
  rewrite get_personalized_news_selected.
  destruct (sort_desc (selected ag)) as [sorted|] eqn:E; [|discriminate].
  intros H. injection H as <- _.
  apply sort_desc_ok in E as (Hp & Hs & _ & _).
  split; [|split; [|split]].
  - intros a Ha. apply slice_to_In in Ha.
    apply (Permutation_in _ (Permutation_sym Hp)) in Ha.
    unfold selected in Ha. apply filter_In in Ha as [Hin Hpass].
    split; [exact Hin | now apply passes_meets].
  - unfold PyList.slice_to. destruct (0 <=? limit)%Z; now apply firstn_sorted.
  - intros Hl. rewrite slice_to_nonneg by exact Hl.
    rewrite length_firstn. lia.
  - intros Hl a Ha Hm.
    assert (Hlen : (List.length sorted <= List.length (articles ag))%nat).
    { rewrite <- (Permutation_length Hp). unfold selected.
      apply filter_length_le. }
    rewrite slice_to_nonneg by lia.
    rewrite firstn_all2 by lia.
    apply (Permutation_in _ Hp). unfold selected. apply filter_In.
    split; [exact Ha | now apply passes_meets].
Qed.

Lemma get_personalized_news_selects_witness :
  (forall a, In a [Fixtures.newer] ->
     In a (articles Fixtures.two_stored)
     /\ meets (user_preferences Fixtures.two_stored) a)
  /\ sorted_desc [Fixtures.newer]
  /\ ((0 <= 1)%Z -> (Z.of_nat (List.length [Fixtures.newer]) <= 1)%Z)
  /\ ((Z.of_nat (List.length (articles Fixtures.two_stored)) <= 1)%Z ->
      forall a, In a (articles Fixtures.two_stored) ->
        meets (user_preferences Fixtures.two_stored) a ->
        In a [Fixtures.newer]).
Proof.
  apply (get_personalized_news_selects Fixtures.two_stored
           (with_articles Fixtures.two_stored [Fixtures.newer; Fixtures.older])
           1 [Fixtures.newer]).
  vm_compute. reflexivity.
Defined.

(** X7. [get_personalized_news] raises exactly when the articles that
pass the tests mix publish times with and without a timezone, and what it
raises then is [TypeError]; otherwise it returns. *)
Theorem get_personalized_news_raises_iff_mixed (ag : NewsGenieAgent)
    (limit : Z) :
  ((exists e, get_personalized_news ag limit = Raise e)
   <-> ~ comparable (selected ag))
  /\ ((exists r ag', get_personalized_news ag limit = Ok (r, ag'))
      <-> comparable (selected ag))
  /\ (forall e, get_personalized_news ag limit = Raise e -> e = TypeError).
Proof.
  rewrite get_personalized_news_selected.
  destruct (sort_desc (selected ag)) as [sorted|e] eqn:E.
  - pose proof (sort_desc_ok _ _ E) as (_ & _ & _ & Hc).
    split; [|split].
    + split; [intros [e H]; discriminate | intros H; contradiction].
    + split; [intros _; exact Hc | intros _; eauto].
    + intros e H. discriminate.
  - pose proof (sort_desc_raise _ _ E) as [-> Hn].
    split; [|split].
    + split; [intros _; exact Hn | intros _; eauto].
    + split; [intros (r & ag' & H); discriminate | intros H; contradiction].
    + intros e H. now injection H as <-.
Qed.

(** X8. With at least one preference list not empty,
[get_personalized_news] is a pure read: when it returns, the agent is
exactly as it was, store order included. *)
Theorem get_personalized_news_pure_with_preferences
    (ag ag' : NewsGenieAgent) (limit : Z) (r : list NewsArticle) :
  pref_categories (user_preferences ag) <> []
  \/ pref_keywords (user_preferences ag) <> []
  \/ pref_sources (user_preferences ag) <> [] ->
  get_personalized_news ag limit = Ok (r, ag') ->
  ag' = ag.
Proof.
  intros Hp H. exact (get_personalized_news_with_preferences ag ag' limit r Hp H).
Qed.

Lemma get_personalized_news_pure_with_preferences_witness :
  (pref_categories (user_preferences Fixtures.sports_fan) <> []
   \/ pref_keywords (user_preferences Fixtures.sports_fan) <> []
   \/ pref_sources (user_preferences Fixtures.sports_fan) <> [])
  /\ get_personalized_news Fixtures.sports_fan 10 = Ok ([], Fixtures.sports_fan)
  /\ Fixtures.sports_fan = Fixtures.sports_fan.
Proof.
  assert (Hp : pref_categories (user_preferences Fixtures.sports_fan) <> []
               \/ pref_keywords (user_preferences Fixtures.sports_fan) <> []
               \/ pref_sources (user_preferences Fixtures.sports_fan) <> [])
    by (left; discriminate).
  assert (H : get_personalized_news Fixtures.sports_fan 10
              = Ok ([], Fixtures.sports_fan))
    by (vm_compute; reflexivity).
  split; [exact Hp | split; [exact H|]].
  exact (get_personalized_news_pure_with_preferences Fixtures.sports_fan
           Fixtures.sports_fan 10 [] Hp H).
Defined.

(** X9. Whatever the preferences, a call of [get_personalized_news] that
returns has at most rearranged the store: the stored articles are the same
ones, each as often as before, and the counters, the preferences and the
api key are untouched. *)
Theorem get_personalized_news_only_reorders (ag ag' : NewsGenieAgent)
    (limit : Z) (r : list NewsArticle) :
  get_personalized_news ag limit = Ok (r, ag') ->
  Permutation (articles ag) (articles ag')
  /\ statistics ag' = statistics ag
  /\ user_preferences ag' = user_preferences ag
  /\ api_key ag' = api_key ag.
Proof.
  intros H. apply get_personalized_news_frame in H as (Hp & Hk & Hu & Hs).
  now repeat split.
Qed.

Lemma get_personalized_news_only_reorders_witness :
  Permutation (articles Fixtures.two_stored)
    (articles (with_articles Fixtures.two_stored
                 [Fixtures.newer; Fixtures.older]))
  /\ statistics (with_articles Fixtures.two_stored
                   [Fixtures.newer; Fixtures.older])
     = statistics Fixtures.two_stored
  /\ user_preferences (with_articles Fixtures.two_stored
                         [Fixtures.newer; Fixtures.older])
     = user_preferences Fixtures.two_stored
  /\ api_key (with_articles Fixtures.two_stored
                [Fixtures.newer; Fixtures.older])
     = api_key Fixtures.two_stored.
Proof.
  apply (get_personalized_news_only_reorders Fixtures.two_stored
           (with_articles Fixtures.two_stored [Fixtures.newer; Fixtures.older])
           10 [Fixtures.newer; Fixtures.older]).
  vm_compute. reflexivity.
Defined.

Lemma sort_desc_sorted (l : list NewsArticle) :
  sorted_desc l -> comparable l -> sort_desc l = Ok l.
Proof.
  unfold sorted_desc. induction l as [|x l IH]; intros Hs Hc; [reflexivity|].
  inversion Hs as [|? ? Hl Hx]; subst.
  rewrite sort_desc_cons, IH; [|exact Hl|].
  - destruct l as [|y l]; [reflexivity|].
    rewrite insert_desc_cons.
    rewrite dt_lt_same_kind by (apply Hc; [now left | right; now left]).
    inversion Hx as [|? ? Hy _]; subst.
    destruct (Z.ltb_spec (ts (published_at x)) (ts (published_at y)));
      [lia | reflexivity].
  - intros a b Ha Hb. apply Hc; now right.
Qed.

(** X10. Asking again changes nothing more: after a call of
[get_personalized_news] that returned, the same call on the agent it left
returns the same list and leaves that agent as it is. *)
Theorem get_personalized_news_again (ag ag' : NewsGenieAgent) (limit : Z)
    (r : list NewsArticle) :
  get_personalized_news ag limit = Ok (r, ag') ->
  get_personalized_news ag' limit = Ok (r, ag').
Proof.
  intros H. pose proof H as H0.
  rewrite get_personalized_news_selected in H.
  destruct (sort_desc (selected ag)) as [sorted|] eqn:E; [|discriminate].
  injection H as <- Hag.
  destruct (PyList.truthy (pref_categories (user_preferences ag))
            || PyList.truthy (pref_keywords (user_preferences ag))
            || PyList.truthy (pref_sources (user_preferences ag))) eqn:Eb.
  - now subst ag'.
  - apply orb_false_iff in Eb as [Eb E3].
    apply orb_false_iff in Eb as [E1 E2].
    subst ag'. rewrite get_personalized_news_selected.
    cbn [with_articles user_preferences]. rewrite E1, E2, E3. cbn [orb].
    assert (Hsel' : selected (with_articles ag sorted) = sorted).
    { unfold selected, passes. cbn [with_articles user_preferences articles].
      rewrite E1, E2, E3. cbn. apply filter_all. }
    rewrite Hsel'.
    apply sort_desc_ok in E as (Hp & Hs & _ & Hc).
    rewrite sort_desc_sorted; [reflexivity | exact Hs|].
    intros a b Ha Hb.
    apply Hc; eapply Permutation_in; try (symmetry; exact Hp); assumption.
Qed.

Lemma get_personalized_news_again_witness :
  get_personalized_news
    (with_articles Fixtures.two_stored [Fixtures.newer; Fixtures.older]) 1
  = Ok ([Fixtures.newer],
        with_articles Fixtures.two_stored [Fixtures.newer; Fixtures.older]).
Proof.
  apply (get_personalized_news_again Fixtures.two_stored).
  vm_compute. reflexivity.
Defined.

Lemma two_stored_comparable : comparable (articles Fixtures.two_stored).
Proof.
  rewrite two_stored_articles.
  intros a b [<-|[<-|[]]] [<-|[<-|[]]]; reflexivity.
Qed.

(** X25. What [get_personalized_news] does with no preference set when the
stored publish times can be ordered against each other (all with a
timezone, or all without) and the limit is not negative: it returns, the
articles it returns are the first [limit] of the stored articles sorted by
publish time, latest first, articles with the same publish time in store
order, and the store is left in that order. *)
Theorem get_personalized_news_sorted_slice (ag : NewsGenieAgent) (limit : Z) :
  pref_categories (user_preferences ag) = [] ->
  pref_keywords (user_preferences ag) = [] ->
  pref_sources (user_preferences ag) = [] ->
  comparable (articles ag) ->
  (0 <= limit)%Z ->
  exists sorted,
    Permutation (articles ag) sorted
    /\ sorted_desc sorted
    /\ same_order_among_equals (articles ag) sorted
    /\ get_personalized_news ag limit
       = Ok (firstn (Z.to_nat limit) sorted, with_articles ag sorted).
Proof.
  intros Hc Hk Hs Hcmp Hlimit.
  rewrite get_personalized_news_no_preferences by assumption.
  destruct (sort_desc_total _ Hcmp) as [sorted E]. rewrite E.
  exists sorted.
  apply sort_desc_ok in E as (Hp & Hsorted & Hst & _).
  repeat split; try assumption.
  now rewrite slice_to_nonneg.
Qed.

Lemma get_personalized_news_sorted_slice_witness :
  exists sorted,
    Permutation (articles Fixtures.two_stored) sorted
    /\ sorted_desc sorted
    /\ same_order_among_equals (articles Fixtures.two_stored) sorted
    /\ get_personalized_news Fixtures.two_stored 1
       = Ok (firstn (Z.to_nat 1) sorted,
             with_articles Fixtures.two_stored sorted).
Proof.
  apply (get_personalized_news_sorted_slice Fixtures.two_stored 1);
    [reflexivity | reflexivity | reflexivity
    | exact two_stored_comparable | lia].
Defined.

(** ** Keyword preferences and case *)

Lemma chars_append (a b : string) :
  list_ascii_of_string (a +:+ b)
  = list_ascii_of_string a ++ list_ascii_of_string b.
Proof. induction a as [|c a IH]; simpl; [reflexivity | now rewrite IH]. Qed.

Lemma lower_chars (s : string) (c : ascii) :
  In c (list_ascii_of_string (PyStr.lower s)) ->
  PyStr.lower_char c = c.
Proof.
  induction s as [|d s IH]; simpl; [intros []|].
  intros [<-|H]; [apply lower_char_idem | now apply IH].
Qed.

(** A keyword with a character that lowering changes occurs in no lowered
text. *)
Lemma changed_by_lower_not_in_lowered (k s : string) :
  changed_by_lower k -> ~ is_substring k (PyStr.lower s).
Proof.
  intros [c [Hc Hne]] [pre [post E]]. apply Hne, (lower_chars s).
  rewrite E, !chars_append, !in_app_iff. right. now left.
Qed.

Lemma keyword_match_changed_by_lower (ks : list string) (a : NewsArticle) :
  Forall changed_by_lower ks -> keyword_match ks a = false.
Proof.
  intros H. unfold keyword_match.
  apply not_true_is_false. intros Hm.
  apply existsb_exists in Hm as [k [Hin Hk]].
  rewrite List.Forall_forall in H. specialize (H k Hin).
  apply orb_true_iff in Hk. rewrite !contains_spec in Hk.
  destruct Hk as [Hk|Hk]; now apply changed_by_lower_not_in_lowered in Hk.
Qed.

Lemma filter_none {A : Type} (f : A -> bool) (l : list A) :
  (forall x, f x = false) -> List.filter f l = [].
Proof.
  intros H. induction l as [|x l IH]; simpl; [reflexivity|].
  now rewrite H.
Qed.

Lemma slice_to_nil {A : Type} (k : Z) : PyList.slice_to (@nil A) k = [].
Proof.
  unfold PyList.slice_to. destruct (0 <=? k)%Z; apply firstn_nil.
Qed.

(** X11. Preference keywords are compared as they are against lowered
titles and descriptions: when the keyword list is not empty and each of
its keywords has a character that [str.lower] changes (a capital A to Z,
say), [get_personalized_news] returns no article at all, whatever the
store holds, and leaves the agent alone. *)
Theorem get_personalized_news_cased_keywords (ag : NewsGenieAgent) (limit : Z) :
  pref_keywords (user_preferences ag) <> [] ->
  Forall changed_by_lower (pref_keywords (user_preferences ag)) ->
  get_personalized_news ag limit = Ok ([], ag).
Proof.
  intros Hne Hup. rewrite get_personalized_news_selected.
  assert (Ht : PyList.truthy (pref_keywords (user_preferences ag)) = true).
  { destruct (pref_keywords (user_preferences ag)); [contradiction | reflexivity]. }
  assert (Hsel : selected ag = []).
  { unfold selected. apply filter_none. intros a. unfold passes.
    rewrite Ht, keyword_match_changed_by_lower by exact Hup.
    cbn [negb orb]. now rewrite andb_false_r. }
  rewrite Hsel, Ht. cbn [sort_desc]. rewrite slice_to_nil.
  now rewrite orb_true_r.
Qed.

Lemma get_personalized_news_cased_keywords_witness :
  pref_keywords
    (user_preferences
       (set_user_preferences Fixtures.two_stored None (Some ["Cup"]) None))
  <> []
  /\ Forall changed_by_lower
       (pref_keywords
          (user_preferences
             (set_user_preferences Fixtures.two_stored None (Some ["Cup"]) None)))
  /\ get_personalized_news
       (set_user_preferences Fixtures.two_stored None (Some ["Cup"]) None) 10
     = Ok ([], set_user_preferences Fixtures.two_stored None (Some ["Cup"]) None).
Proof.
  assert (Hne : pref_keywords
                  (user_preferences
                     (set_user_preferences Fixtures.two_stored None
                        (Some ["Cup"]) None)) <> [])
    by discriminate.
  assert (Hup : Forall changed_by_lower
                  (pref_keywords
                     (user_preferences
                        (set_user_preferences Fixtures.two_stored None
                           (Some ["Cup"]) None)))).
  { constructor; [|constructor].
    exists "C"%char. split; [now left | discriminate]. }
  split; [exact Hne | split; [exact Hup|]].
  exact (get_personalized_news_cased_keywords _ 10 Hne Hup).
Defined.

(** ** Preference updates *)

Lemma provided_not_empty (arg : option (list string)) (old : list string) :
  old <> [] -> provided arg old <> [].
Proof.
  intros H. destruct arg as [[|x l]|]; simpl; try exact H. discriminate.
Qed.

(** X12. A preference list that holds something can be replaced and never
emptied: no call on the agent (fetch, preference update, any read, clear)
turns a non-empty preference list into the empty one. *)
Theorem preferences_never_emptied (w : World) (c : Call)
    (ag ag' : NewsGenieAgent) :
  step w c ag ag' ->
  (pref_categories (user_preferences ag) <> [] ->
   pref_categories (user_preferences ag') <> [])
  /\ (pref_keywords (user_preferences ag) <> [] ->
      pref_keywords (user_preferences ag') <> [])
  /\ (pref_sources (user_preferences ag) <> [] ->
      pref_sources (user_preferences ag') <> []).
Proof.
  intros Hstep. destruct Hstep; try (repeat split; intros H; exact H).
  - rewrite fetch_news_batch. cbn [snd user_preferences]. now repeat split.
  - cbn [set_user_preferences user_preferences pref_categories pref_keywords
         pref_sources].
    repeat split; apply provided_not_empty.
  - match goal with Hg : get_personalized_news _ _ = Ok _ |- _ =>
      apply get_personalized_news_frame in Hg as (_ & _ & -> & _) end.
    now repeat split.
  - cbn [with_articles user_preferences]. tauto.
Qed.

Lemma preferences_never_emptied_witness :
  step Fixtures.offline (CallSetPreferences (Some []) None None)
    Fixtures.sports_fan
    (set_user_preferences Fixtures.sports_fan (Some []) None None)
  /\ ((pref_categories (user_preferences Fixtures.sports_fan) <> [] ->
       pref_categories
         (user_preferences
            (set_user_preferences Fixtures.sports_fan (Some []) None None))
       <> [])
      /\ (pref_keywords (user_preferences Fixtures.sports_fan) <> [] ->
          pref_keywords
            (user_preferences
               (set_user_preferences Fixtures.sports_fan (Some []) None None))
          <> [])
      /\ (pref_sources (user_preferences Fixtures.sports_fan) <> [] ->
          pref_sources
            (user_preferences
               (set_user_preferences Fixtures.sports_fan (Some []) None None))
          <> [])).
Proof.
  assert (H : step Fixtures.offline (CallSetPreferences (Some []) None None)
                Fixtures.sports_fan
                (set_user_preferences Fixtures.sports_fan (Some []) None None))
    by apply step_set_preferences.
  split; [exact H|].
  exact (preferences_never_emptied _ _ _ _ H).
Defined.

Lemma provided_then (first second : option (list string)) (old : list string) :
  provided second (provided first old) = provided (then_arg first second) old.
Proof.
  destruct second as [[|x l]|]; reflexivity.
Qed.

(** X13. Two preference updates in a row amount to one: for each list the
later argument wins when it is a non-empty list, and the earlier argument
stands otherwise; in particular an update made twice is the update made
once. *)
Theorem set_user_preferences_twice (ag : NewsGenieAgent)
    (c1 k1 s1 c2 k2 s2 : option (list string)) :
  set_user_preferences (set_user_preferences ag c1 k1 s1) c2 k2 s2
  = set_user_preferences ag (then_arg c1 c2) (then_arg k1 k2) (then_arg s1 s2)
  /\ set_user_preferences (set_user_preferences ag c1 k1 s1) c1 k1 s1
     = set_user_preferences ag c1 k1 s1.
Proof.
  unfold set_user_preferences.
  cbn [api_key articles user_preferences statistics pref_categories
       pref_keywords pref_sources].
  split.
  - now rewrite !provided_then.
  - rewrite !provided_then.
    assert (H : forall a : option (list string), then_arg a a = a)
      by (intros [[|x l]|]; reflexivity).
    now rewrite !H.
Qed.

(** ** Search *)

Lemma lower_app (a b : string) :
  PyStr.lower (a +:+ b) = PyStr.lower a +:+ PyStr.lower b.
Proof. induction a as [|x a IH]; simpl; [reflexivity | now rewrite IH]. Qed.

Lemma app_assoc_string (a b c : string) :
  (a +:+ b) +:+ c = a +:+ (b +:+ c).
Proof. induction a as [|x a IH]; simpl; [reflexivity | now rewrite IH]. Qed.

(** X14. The empty query matches everything: [search_articles] with the
empty string returns the whole store, in store order. *)
Theorem search_articles_empty_query (ag : NewsGenieAgent) :
  search_articles ag EmptyString = articles ag.
Proof.
  unfold search_articles. rewrite <- (filter_all (articles ag)) at 2.
  apply filter_ext. intros a. cbn [PyStr.lower].
  destruct (PyStr.lower (title a)); reflexivity.
Qed.

(** ** Sample batches *)

Lemma enumerate_increasing {A : Type} (l : list A) (start : nat) :
  StronglySorted (fun p q : nat * A => (fst p < fst q)%nat)
    (combine (seq start (List.length l)) l).
Proof.
  revert start. induction l as [|x l IH]; intros start; simpl;
    constructor; [apply IH|].
  apply List.Forall_forall. intros [j y] Hin.
  apply in_combine_l, in_seq in Hin. simpl. lia.
Qed.

Lemma StronglySorted_filter {A : Type} (R : A -> A -> Prop) (f : A -> bool)
    (l : list A) :
  StronglySorted R l -> StronglySorted R (List.filter f l).
Proof.
  induction 1 as [|x l _ IH Hx]; simpl; [constructor|].
  destruct (f x); [|exact IH]. constructor; [exact IH|].
  apply List.Forall_forall. intros y Hy. apply filter_In in Hy as [Hy _].
  rewrite List.Forall_forall in Hx. now apply Hx.
Qed.

Lemma StronglySorted_map {A B : Type} (R : A -> A -> Prop)
    (R' : B -> B -> Prop) (g : A -> B) (l : list A) :
  (forall x y, R x y -> R' (g x) (g y)) ->
  StronglySorted R l -> StronglySorted R' (map g l).
Proof.
  intros Hg. induction 1 as [|x l _ IH Hx]; simpl; constructor; [exact IH|].
  apply List.Forall_forall. intros b Hb.
  apply in_map_iff in Hb as [y [<- Hy]].
  rewrite List.Forall_forall in Hx. now apply Hg, Hx.
Qed.

Lemma sample_batch_sorted_naive (w : World) (cat : string) (count : Z) :
  steady_clock w ->
  sorted_desc (_generate_sample_news w cat count)
  /\ Forall (fun a => is_naive (published_at a) = true)
       (_generate_sample_news w cat count).
Proof.
  intros Hclock. rewrite generate_sample_news_firstn.
  set (batch := map _ _).
  assert (Hs : sorted_desc batch).
  { unfold batch, sorted_desc, PyList.enumerate.
    apply (StronglySorted_map (fun p q : nat * Sample => (fst p < fst q)%nat)).
    - intros [i s] [j s'] Hij. simpl in Hij.
      unfold sample_article. cbn [published_at minus_hours ts].
      specialize (Hclock i j (Nat.lt_le_incl _ _ Hij)).
      rewrite Nat2Z.inj_sub in Hclock by lia. lia.
    - apply StronglySorted_filter, enumerate_increasing. }
  assert (Hn : Forall (fun a => is_naive (published_at a) = true) batch).
  { unfold batch. apply List.Forall_forall. intros a Ha.
    apply in_map_iff in Ha as [[i s] [<- _]]. reflexivity. }
  split; [now apply firstn_sorted | now apply firstn_Forall].
Qed.

(** X16. While the clock advances by no more than an hour per sample, a
sample batch comes latest first, and all its publish times are naive, so
that they can be ordered against each other. *)
Theorem sample_batch_latest_first (w : World) (cat : string) (count : Z) :
  steady_clock w ->
  sorted_desc (_generate_sample_news w cat count)
  /\ Forall (fun a => is_naive (published_at a) = true)
       (_generate_sample_news w cat count)
  /\ comparable (_generate_sample_news w cat count).
Proof.
  intros Hclock.
  destruct (sample_batch_sorted_naive w cat count Hclock) as [Hs Hn].
  split; [exact Hs | split; [exact Hn|]].
  intros a b Ha Hb.
  rewrite List.Forall_forall in Hn. now rewrite (Hn a Ha), (Hn b Hb).
Qed.

Lemma offline_steady_clock : steady_clock Fixtures.offline.
Proof.
  intros i j Hij. cbn. unfold Fixtures.clock, us_per_hour. lia.
Qed.

Lemma sample_batch_latest_first_witness :
  steady_clock Fixtures.offline
  /\ sorted_desc (_generate_sample_news Fixtures.offline "Sports" 4)
  /\ Forall (fun a => is_naive (published_at a) = true)
       (_generate_sample_news Fixtures.offline "Sports" 4)
  /\ comparable (_generate_sample_news Fixtures.offline "Sports" 4).
Proof.
  split; [exact offline_steady_clock|].
  exact (sample_batch_latest_first Fixtures.offline "Sports" 4
           offline_steady_clock).
Defined.

Lemma filter_nil_iff {A : Type} (f : A -> bool) (l : list A) :
  List.filter f l = [] <-> forall x, In x l -> f x = false.
Proof.
  induction l as [|x l IH]; simpl.
  - split; [intros _ x [] | reflexivity].
  - destruct (f x) eqn:E.
    + split; [discriminate|]. intros H.
      specialize (H x (or_introl eq_refl)). congruence.
    + rewrite IH. split.
      * intros H y [<-|Hy]; [exact E | now apply H].
      * intros H y Hy. apply H. now right.
Qed.

Lemma sample_categories :
  forall c,
    In c (map sample_category (samples ++ samples ++ samples))
    <-> In c ["Technology"; "Business"; "Sports"; "Health"; "Science";
              "Politics"; "Entertainment"]%string.
Proof. intros c. cbn. tauto. Qed.

Lemma available_nil_iff (cat : string) :
  available cat = []
  <-> cat <> EmptyString
      /\ ~ In cat ["Technology"; "Business"; "Sports"; "Health"; "Science";
                   "Politics"; "Entertainment"]%string.
Proof.
  unfold available. rewrite filter_nil_iff, <- sample_categories. split.
  - intros H. split.
    + intros ->.
      pose proof (H (List.hd (mkSample "" "" "" "") samples)
                    (or_introl eq_refl)) as H0.
      discriminate H0.
    + intros Hin. apply in_map_iff in Hin as [s [Hc Hs]].
      specialize (H s Hs). apply orb_false_iff in H as [_ H].
      apply String.eqb_neq in H. contradiction.
  - intros [Hne Hnot] s Hs. apply orb_false_iff. split.
    + destruct cat; [contradiction | reflexivity].
    + apply String.eqb_neq. intros E. apply Hnot, in_map_iff.
      now exists s.
Qed.

(** X17. The sample generator returns no article exactly when the count is
below one or a category is requested that no catalog entry has; the
category "General", which is one of [CATEGORIES], is such a category. *)
Theorem sample_batch_empty_iff (w : World) (cat : string) (count : Z) :
  (_generate_sample_news w cat count = []
   <-> (count <= 0)%Z
       \/ (cat <> EmptyString
           /\ ~ In cat ["Technology"; "Business"; "Sports"; "Health";
                        "Science"; "Politics"; "Entertainment"]%string))
  /\ In "General"%string CATEGORIES
  /\ _generate_sample_news w "General" count = [].
Proof.
  assert (H : forall c,
    _generate_sample_news w c count = []
    <-> (count <= 0)%Z
        \/ (c <> EmptyString
            /\ ~ In c ["Technology"; "Business"; "Sports"; "Health";
                       "Science"; "Politics"; "Entertainment"]%string)).
  { intros c. rewrite <- available_nil_iff.
    rewrite <- !length_zero_iff_nil.
    rewrite generate_sample_news_firstn, length_firstn, built_length. lia. }
  split; [apply H | split].
  - cbn. tauto.
  - apply H. right. split; [discriminate|]. cbn.
    intros [E|[E|[E|[E|[E|[E|[E|[]]]]]]]]; discriminate.
Qed.

(** X18. A fetch that returns no article leaves the agent exactly as it
was. *)
Theorem fetch_news_nothing_returned (w : World) (ag : NewsGenieAgent)
    (query cat : string) (max_results : Z) :
  fst (fetch_news w ag query cat max_results) = Ok [] ->
  snd (fetch_news w ag query cat max_results) = ag.
Proof.
  intros H. destruct (fetch_news_ok_articles _ _ _ _ _ _ H) as [Ha Hst].
  revert Ha Hst. rewrite fetch_news_batch. cbv zeta.
  cbn [snd articles statistics fold_left]. rewrite app_nil_r.
  intros -> ->. now destruct ag.
Qed.

Lemma fetch_news_nothing_returned_witness :
  fst (fetch_news Fixtures.offline Fixtures.two_stored "" "General" 5) = Ok []
  /\ snd (fetch_news Fixtures.offline Fixtures.two_stored "" "General" 5)
     = Fixtures.two_stored.
Proof.
  assert (H : fst (fetch_news Fixtures.offline Fixtures.two_stored ""
                     "General" 5) = Ok [])
    by (vm_compute; reflexivity).
  split; [exact H|].
  exact (fetch_news_nothing_returned Fixtures.offline Fixtures.two_stored
           "" "General" 5 H).
Defined.

(** ** Keywords, summaries and case *)

Lemma findall_words_chars (s : string) :
  Forall
    (fun word =>
       forall c, In c (list_ascii_of_string word) ->
         PyStr.is_word_char c = true /\ In c (list_ascii_of_string s))
    (PyStr.findall_words s).
Proof.
  induction s as [|c t IH]; [constructor|].
  assert (Hlift : Forall
    (fun word =>
       forall x, In x (list_ascii_of_string word) ->
         PyStr.is_word_char x = true
         /\ In x (list_ascii_of_string (String c t)))
    (PyStr.findall_words t)).
  { eapply List.Forall_impl; [|exact IH]. simpl.
    intros word H x Hx. destruct (H x Hx). split; [assumption | now right]. }
  cbn [PyStr.findall_words].
  destruct (PyStr.is_word_char c) eqn:Ec; [|exact Hlift].
  assert (Hone : forall x, In x (list_ascii_of_string (String c EmptyString)) ->
            PyStr.is_word_char x = true
            /\ In x (list_ascii_of_string (String c t))).
  { intros x [<-|[]]. split; [exact Ec | now left]. }
  destruct t as [|c' t']; [constructor; [exact Hone | constructor]|].
  destruct (PyStr.is_word_char c') eqn:Ec'.
  - destruct (PyStr.findall_words (String c' t')) as [|h r];
      [constructor; [exact Hone | constructor]|].
    inversion Hlift as [|? ? Hh Hr]; subst.
    constructor; [|exact Hr].
    intros x [<-|Hx]; [split; [exact Ec | now left] | now apply Hh].
  - constructor; [exact Hone | exact Hlift].
Qed.

Lemma lower_fixed (k : string) :
  (forall c, In c (list_ascii_of_string k) -> PyStr.lower_char c = c) ->
  PyStr.lower k = k.
Proof.
  induction k as [|c k IH]; intros H; simpl; [reflexivity|].
  rewrite (H c (or_introl eq_refl)), IH; [reflexivity|].
  intros x Hx. apply H. now right.
Qed.

Lemma word_char_not_space (c : ascii) :
  PyStr.is_word_char c = true -> negb (PyStr.is_space c) = true.
Proof.
  destruct c as [[] [] [] [] [] [] [] []]; vm_compute; intros H;
    first [reflexivity | discriminate H].
Qed.

(** X19. Every keyword [_extract_keywords] returns is a token of word
characters (the class of the pattern: letters, digits and the underscore)
that lowering leaves as it is, and it holds no white space. *)
Theorem extract_keywords_tokens (w : World) (a : NewsArticle) (k : string) :
  set_iter_ok (set_iter w) ->
  In k (_extract_keywords w a) ->
  PyStr.lower k = k
  /\ all_chars PyStr.is_word_char k
  /\ all_chars (fun c => negb (PyStr.is_space c)) k.
Proof.
  intros Hset Hk. unfold _extract_keywords in Hk.
  apply firstn_In in Hk.
  match type of Hk with In _ (set_iter w ?cands) =>
    destruct (Hset cands) as [_ Hiff] end.
  apply Hiff in Hk. apply filter_In in Hk as [Hword _].
  pose proof (findall_words_chars (article_text a)) as Hall.
  rewrite List.Forall_forall in Hall. specialize (Hall k Hword).
  split.
  - apply lower_fixed. intros c Hc. destruct (Hall c Hc) as [_ Hin].
    unfold article_text in Hin. now apply lower_chars in Hin.
  - split; apply List.Forall_forall; intros c Hc;
      destruct (Hall c Hc) as [Hw _]; [exact Hw|].
    now apply word_char_not_space.
Qed.

Lemma extract_keywords_tokens_witness :
  set_iter_ok (set_iter Fixtures.offline)
  /\ In "central"%string
       (_extract_keywords Fixtures.offline Fixtures.led_by_blank)
  /\ PyStr.lower "central" = "central"%string
  /\ all_chars PyStr.is_word_char "central"
  /\ all_chars (fun c => negb (PyStr.is_space c)) "central".
Proof.
  assert (Hin : In "central"%string
                  (_extract_keywords Fixtures.offline Fixtures.led_by_blank))
    by (vm_compute; left; reflexivity).
  split; [exact nodup_set_iter_ok | split; [exact Hin|]].
  exact (extract_keywords_tokens Fixtures.offline Fixtures.led_by_blank
           "central" nodup_set_iter_ok Hin).
Defined.

Lemma length_app_string (a b : string) :
  String.length (a +:+ b) = (String.length a + String.length b)%nat.
Proof. induction a as [|x a IH]; simpl; [reflexivity | now rewrite IH]. Qed.

Lemma first_sentence_length (d p : string) :
  first_sentence d p -> (String.length p <= String.length d)%nat.
Proof.
  intros [_ [->|[rest ->]]]; [lia|]. rewrite length_app_string. lia.
Qed.

Lemma stripped_length (p q : string) :
  stripped p q -> (String.length q <= String.length p)%nat.
Proof.
  intros [[l [r [-> _]]] _]. rewrite !length_app_string. lia.
Qed.

(** X20. For an article with a description the summary is never empty and
never much longer than the description: it has at least 4 characters, at
most 3 more than the description, and it ends with a period. *)
Theorem generate_summary_bounds (a : NewsArticle) :
  description a <> EmptyString ->
  (4 <= String.length (_generate_summary a))%nat
  /\ (String.length (_generate_summary a)
      <= String.length (description a) + 3)%nat
  /\ exists s, _generate_summary a = s +:+ ".".
Proof.
  intros Hd. unfold _generate_summary.
  destruct (description a) as [|c d] eqn:E; [contradiction|].
  cbn [PyStr.truthy negb]. rewrite <- E.
  set (p := hd EmptyString (PyStr.split "." (description a))).
  pose proof (first_sentence_length _ _ (split_hd_first_sentence (description a)))
    as Hp. fold p in Hp.
  pose proof (stripped_length _ _ (strip_stripped p)) as Hq.
  destruct (take_prefix 100 (description a)) as [_ Hlen].
  destruct (Nat.ltb_spec 20 (String.length (PyStr.strip p +:+ "."))) as [Hlt|Hle].
  - rewrite length_app_string in *. simpl String.length in *.
    split; [lia | split; [lia | now eexists]].
  - rewrite length_app_string, Hlen. simpl String.length.
    assert (1 <= String.length (description a))%nat by (rewrite E; simpl; lia).
    split; [lia | split; [lia|]].
    exists (PyStr.take 100 (description a) +:+ "..").
    now rewrite app_assoc_string.
Qed.

Lemma generate_summary_bounds_witness :
  description Fixtures.no_period <> EmptyString
  /\ (4 <= String.length (_generate_summary Fixtures.no_period))%nat
  /\ (String.length (_generate_summary Fixtures.no_period)
      <= String.length (description Fixtures.no_period) + 3)%nat
  /\ exists s, _generate_summary Fixtures.no_period = s +:+ ".".
Proof.
  assert (H : description Fixtures.no_period <> EmptyString) by discriminate.
  split; [exact H|].
  exact (generate_summary_bounds Fixtures.no_period H).
Defined.

(** X21. Sentiment and keywords do not see case: two articles whose
titles and whose descriptions agree once lowered get the same sentiment
and the same keywords. *)
Theorem enrichment_ignores_case (w : World) (a b : NewsArticle) :
  PyStr.lower (title a) = PyStr.lower (title b) ->
  PyStr.lower (description a) = PyStr.lower (description b) ->
  _analyze_sentiment a = _analyze_sentiment b
  /\ _extract_keywords w a = _extract_keywords w b.
Proof.
  intros Ht Hd.
  assert (E : article_text a = article_text b).
  { unfold article_text. now rewrite !lower_app, Ht, Hd. }
  unfold _analyze_sentiment, _extract_keywords. now rewrite E.
Qed.

Lemma enrichment_ignores_case_witness :
  _analyze_sentiment Fixtures.repeated_win
  = _analyze_sentiment
      (Fixtures.article "WIN AFTER WIN" "critics FAIL to notice" "Wire"
         "Sports" (Aware 1))
  /\ _extract_keywords Fixtures.offline Fixtures.repeated_win
     = _extract_keywords Fixtures.offline
         (Fixtures.article "WIN AFTER WIN" "critics FAIL to notice" "Wire"
            "Sports" (Aware 1)).
Proof.
  apply (enrichment_ignores_case Fixtures.offline Fixtures.repeated_win
           (Fixtures.article "WIN AFTER WIN" "critics FAIL to notice" "Wire"
              "Sports" (Aware 1))); reflexivity.
Defined.

(** ** The demo key *)

Lemma sample_loop_world (w w' : World) (cat : string) (count : Z)
    (items : list (nat * Sample)) (acc : list NewsArticle) :
  (forall i, now_at w i = now_at w' i) ->
  sample_loop w cat count items acc = sample_loop w' cat count items acc.
Proof.
  intros Hnow. revert acc.
  induction items as [|[i s] items IH]; intros acc; simpl; [reflexivity|].
  destruct (_ >=? _)%Z; [reflexivity|].
  destruct (_ && _); [apply IH|].
  unfold sample_article. rewrite Hnow. apply IH.
Qed.

Lemma enrich_world (w w' : World) (a : NewsArticle) :
  (forall l, set_iter w l = set_iter w' l) -> enrich w a = enrich w' a.
Proof.
  intros Hset. unfold enrich, _extract_keywords. cbn. now rewrite Hset.
Qed.

(** X22. With the demo key, which is the key of an agent made without one,
[fetch_news] does not depend on the headline service: two worlds with the
same clock and the same set order give the same articles and the same
agent, whatever their services would answer. *)
Theorem fetch_news_demo_ignores_service (w w' : World) (ag : NewsGenieAgent)
    (query cat : string) (max_results : Z) :
  api_key ag = "demo" ->
  (forall i, now_at w i = now_at w' i) ->
  (forall l, set_iter w l = set_iter w' l) ->
  fetch_news w ag query cat max_results
  = fetch_news w' ag query cat max_results.
Proof.
  intros Hk Hnow Hset. rewrite !fetch_news_batch. cbv zeta.
  assert (Hb : raw_batch w ag query cat max_results
               = raw_batch w' ag query cat max_results).
  { unfold raw_batch. rewrite Hk. cbn [PyStr.truthy].
    change (negb ("demo" =? "demo")%string) with false. cbn [andb].
    unfold _generate_sample_news. now rewrite (sample_loop_world w w'). }
  rewrite Hb.
  assert (Hm : forall l, map (enrich w) l = map (enrich w') l).
  { intros l. apply map_ext. intros a. now apply enrich_world. }
  now rewrite Hm.
Qed.

Lemma fetch_news_demo_ignores_service_witness :
  api_key (__init__ None) = "demo"
  /\ fetch_news Fixtures.wire (__init__ None) "" "Sports" 2
     = fetch_news Fixtures.offline (__init__ None) "" "Sports" 2.
Proof.
  split; [reflexivity|].
  apply (fetch_news_demo_ignores_service Fixtures.wire Fixtures.offline
           (__init__ None) "" "Sports" 2); reflexivity.
Defined.

(** ** Fetching, then asking for personalized news *)

Lemma generate_sample_news_naive (w : World) (cat : string) (count : Z) :
  Forall (fun a => is_naive (published_at a) = true)
    (_generate_sample_news w cat count).
Proof.
  rewrite generate_sample_news_firstn. apply firstn_Forall.
  apply List.Forall_forall. intros a Ha.
  apply in_map_iff in Ha as [[i s] [<- _]]. reflexivity.
Qed.

Lemma selected_no_preferences (ag : NewsGenieAgent) :
  pref_categories (user_preferences ag) = [] ->
  pref_keywords (user_preferences ag) = [] ->
  pref_sources (user_preferences ag) = [] ->
  selected ag = articles ag.
Proof.
  intros Hc Hk Hs. unfold selected, passes. rewrite Hc, Hk, Hs. cbn.
  apply filter_all.
Qed.

Lemma with_articles_same (ag : NewsGenieAgent) :
  with_articles ag (articles ag) = ag.
Proof. now destruct ag. Qed.

(** X23. On an agent with the demo key, an empty store and no preference,
one fetch followed by [get_personalized_news] is harmless while the clock
is steady: the samples are stored latest first already, so the call
returns the head of the store and leaves the agent exactly as the fetch
left it. *)
Theorem fetch_then_personalized_news (w : World) (ag : NewsGenieAgent)
    (query cat : string) (max_results limit : Z) :
  api_key ag = "demo" ->
  articles ag = [] ->
  user_preferences ag = mkPreferences [] [] [] ->
  steady_clock w ->
  let ag' := snd (fetch_news w ag query cat max_results) in
  get_personalized_news ag' limit
  = Ok (PyList.slice_to (articles ag') limit, ag').
Proof.
  intros Hk Ha Hp Hclock ag'.
  assert (Hart : articles ag'
                 = map (enrich w) (_generate_sample_news w cat max_results)).
  { assert (Hb : raw_batch w ag query cat max_results
                 = map raw (_generate_sample_news w cat max_results))
      by (unfold raw_batch; now rewrite Hk).
    unfold ag'. rewrite fetch_news_batch. cbv zeta. cbn [snd articles].
    rewrite Hb.
    destruct (described_prefix_raw (_generate_sample_news w cat max_results))
      as [-> ->].
    now rewrite Ha. }
  assert (Hpref : user_preferences ag' = mkPreferences [] [] []).
  { unfold ag'. rewrite fetch_news_batch. exact Hp. }
  destruct (sample_batch_sorted_naive w cat max_results Hclock) as [Hs Hn].
  assert (Hs' : sorted_desc (articles ag')).
  { rewrite Hart. unfold sorted_desc in *.
    eapply StronglySorted_map; [|exact Hs]. intros x y H. exact H. }
  assert (Hc' : comparable (articles ag')).
  { rewrite Hart. intros x y Hx Hy.
    apply in_map_iff in Hx as [x0 [<- Hx]].
    apply in_map_iff in Hy as [y0 [<- Hy]].
    rewrite List.Forall_forall in Hn.
    cbn [enrich published_at]. now rewrite (Hn x0 Hx), (Hn y0 Hy). }
  rewrite get_personalized_news_selected.
  rewrite selected_no_preferences by (rewrite Hpref; reflexivity).
  rewrite (sort_desc_sorted _ Hs' Hc'), Hpref. cbn [pref_categories
    pref_keywords pref_sources PyList.truthy orb].
  now rewrite with_articles_same.
Qed.

Lemma fetch_then_personalized_news_witness :
  get_personalized_news
    (snd (fetch_news Fixtures.offline (__init__ None) "" "Sports" 4)) 2
  = Ok (PyList.slice_to
          (articles (snd (fetch_news Fixtures.offline (__init__ None) ""
                            "Sports" 4))) 2,
        snd (fetch_news Fixtures.offline (__init__ None) "" "Sports" 4)).
Proof.
  apply (fetch_then_personalized_news Fixtures.offline (__init__ None)
           "" "Sports" 4 2);
    [reflexivity | reflexivity | reflexivity | exact offline_steady_clock].
Defined.

(** X24. One fallback after a live fetch breaks personalized news: when
the store holds an article whose publish time carries a timezone, no
preference is set, and a fetch then falls back to a sample batch that is
not empty, [get_personalized_news] on the agent the fetch leaves raises
[TypeError], whatever the limit. *)
Theorem personalized_news_after_fallback (w : World) (ag : NewsGenieAgent)
    (query cat : string) (max_results limit : Z) (a : NewsArticle) :
  In a (articles ag) ->
  is_naive (published_at a) = false ->
  user_preferences ag = mkPreferences [] [] [] ->
  fst (fetch_news w ag query cat max_results)
  = Ok (map (enrich w) (_generate_sample_news w cat max_results)) ->
  _generate_sample_news w cat max_results <> [] ->
  get_personalized_news (snd (fetch_news w ag query cat max_results)) limit
  = Raise TypeError.
Proof.
  intros Ha Haware Hp Hfall Hne.
  set (ag' := snd (fetch_news w ag query cat max_results)).
  assert (Hart : articles ag'
                 = articles ag
                   ++ map (enrich w) (_generate_sample_news w cat max_results)).
  { unfold ag'. now apply fetch_news_ok_articles. }
  assert (Hpref : user_preferences ag' = mkPreferences [] [] []).
  { unfold ag'. rewrite fetch_news_batch. exact Hp. }
  assert (Hmixed : ~ comparable (articles ag')).
  { intros Hc.
    destruct (_generate_sample_news w cat max_results) as [|s l] eqn:E;
      [contradiction|].
    pose proof (generate_sample_news_naive w cat max_results) as Hn.
    rewrite E in Hn. inversion Hn as [|? ? Hs _]; subst.
    assert (Hin1 : In a (articles ag')).
    { rewrite Hart. apply in_or_app. now left. }
    assert (Hin2 : In (enrich w s) (articles ag')).
    { rewrite Hart. apply in_or_app. right. now left. }
    specialize (Hc a (enrich w s) Hin1 Hin2).
    cbn [enrich published_at] in Hc. congruence. }
  rewrite get_personalized_news_selected.
  rewrite selected_no_preferences by (rewrite Hpref; reflexivity).
  destruct (sort_desc (articles ag')) as [sorted|e] eqn:E.
  - apply sort_desc_ok in E as (_ & _ & _ & Hc). contradiction.
  - now destruct e.
Qed.

Lemma personalized_news_after_fallback_witness :
  get_personalized_news
    (snd (fetch_news Fixtures.offline Fixtures.two_stored "" "Health" 1)) 10
  = Raise TypeError.
Proof.
  apply (personalized_news_after_fallback Fixtures.offline Fixtures.two_stored
           "" "Health" 1 10 Fixtures.older).
  - rewrite two_stored_articles. now left.
  - reflexivity.
  - reflexivity.
  - vm_compute. reflexivity.
  - vm_compute. discriminate.
Defined.
